(** * The YANG printer of libyang (src/printer/yang.c)

    A shallow embedding of the schema printer and the properties of its
    output.  The printer walks a read-only schema tree and writes text to
    a [FILE *]; here the stream is an abstract interface, the tree is a
    value, and every printing function maps a stream state to the stream
    state after its writes. *)

From Stdlib Require Import ZArith List String Ascii Bool Lia Arith.
From Stdlib Require Import DecimalString.
From Equations Require Import Equations.
Import ListNotations.

Local Open Scope string_scope.
Local Open Scope Z_scope.

(** ** Text helpers *)

Module Text.

(** The characters the format strings escape: newline and double quote. *)
Definition nl_char : ascii := ascii_of_nat 10.
Definition nl : string := String nl_char EmptyString.
Definition dq : string := String (ascii_of_nat 34) EmptyString.

(** What [printf("%*s", 2*level, INDENT)] prints with [INDENT] empty: the
    empty string padded on the left to the width [LEVEL = level*2]. *)
Fixpoint spaces (n : nat) : string :=
  match n with
  | O => EmptyString
  | S n => String " " (spaces n)
  end.

(** [#define LEVEL (level*2)].  The level is a natural number: it starts
    at 0 in [yang_print_model] and every printer takes it back to the value
    it got after it has increased it. *)
Definition LEVEL (level : nat) : nat := (level * 2)%nat.

(** The indentation of a line: the format [%*s] with [LEVEL, INDENT]. *)
Definition indent (level : nat) : string := spaces (LEVEL level).

(** [printf("%d", v)]. *)
Definition string_of_Z (v : Z) : string := NilZero.string_of_int (Z.to_int v).

(** [strchr(t, c)] as the offset [s - t] of the first occurrence of [c],
    [None] for the null pointer. *)
Fixpoint strchr (t : string) (c : ascii) : option nat :=
  match t with
  | EmptyString => None
  | String a t' =>
      if Ascii.eqb a c then Some O
      else match strchr t' c with
           | Some n => Some (S n)
           | None => None
           end
  end.

(** The first [n] bytes at [t] (what [fwrite(t, 1, n, f)] sends). *)
Fixpoint take (n : nat) (t : string) : string :=
  match n, t with
  | S n, String a t' => String a (take n t')
  | _, _ => EmptyString
  end.

(** The pointer [t + n]. *)
Fixpoint advance (n : nat) (t : string) : string :=
  match n, t with
  | S n, String _ t' => advance n t'
  | _, _ => t
  end.

Lemma strchr_lt (t : string) (c : ascii) (n : nat) :
  strchr t c = Some n -> (n < String.length t)%nat.
Proof.
  revert n; induction t as [|a t IH]; simpl; intros n; [discriminate|].
  destruct (Ascii.eqb a c).
  - intros [= <-]. lia.
  - destruct (strchr t c) as [m|]; [|discriminate].
    intros [= <-]. specialize (IH m eq_refl). lia.
Qed.

Lemma advance_length (n : nat) (t : string) :
  String.length (advance n t) = (String.length t - n)%nat.
Proof.
  revert t; induction n as [|n IH]; intros [|a t]; simpl; auto.
Qed.

(** A value together with the equation that names it, for the loop test
    [(s = strchr(t, c))]. *)
Definition inspect {A : Type} (x : A) : {y : A | x = y} := exist _ x eq_refl.

End Text.
Import Text.

(** ** The output stream

    [FILE *f] is only written to, with [fprintf] and [fwrite].  A stream
    is any state with a write operation that returns the new state and the
    value the C call returns (the number of bytes written, negative on
    failure).  The format strings are expanded at the call site. *)

Class Stream (FILE : Type) : Type :=
  write : FILE -> string -> FILE * Z.

(** [fprintf(f, format, ...)] with the expanded text [s], and
    [fwrite(s, 1, n, f)] with the [n] bytes [s]. *)
Definition fprintf {FILE} `{Stream FILE} (f : FILE) (s : string) : FILE * Z :=
  write f s.

Definition fwrite {FILE} `{Stream FILE} (f : FILE) (s : string) : FILE * Z :=
  write f s.

(** A call statement whose result is not used: [fprintf(f, ...);]. *)
Definition discard {FILE} (r : FILE * Z) : FILE := fst r.

(** [EXIT_SUCCESS] of stdlib.h. *)
Definition EXIT_SUCCESS : Z := 0.

(** A stream that never fails: the text written so far. *)
#[export] Instance buffer : Stream string :=
  fun f s => (f ++ s, Z.of_nat (String.length s)).

(** A stream with write failures.  [broken n] tells whether write call
    number [n] fails; a failed call writes nothing, sets the error
    indicator and returns a negative value. *)
Record flaky : Type := Flaky {
  accepted : string;
  calls : nat;
  broken : nat -> bool;
  error : bool
}.

#[export] Instance flaky_stream : Stream flaky :=
  fun f s =>
    if broken f (calls f)
    then (Flaky (accepted f) (S (calls f)) (broken f) true, -1)
    else (Flaky (accepted f ++ s) (S (calls f)) (broken f) (error f),
          Z.of_nat (String.length s)).

(** A stream that only counts the write calls. *)
#[export] Instance counter : Stream nat :=
  fun f s => (S f, Z.of_nat (String.length s)).

(** A stream that records the texts of the write calls, in their order. *)
#[export] Instance recorder : Stream (list string) :=
  fun f s => ((f ++ [s])%list, Z.of_nat (String.length s)).

(** ** tree.h

    The header is not part of the sources at hand.  Its constants are
    parameters of the development: the theorems hold for all their values,
    under the hypotheses they state.  Its structures are records with the
    members that yang.c reads, under the names they have there; the data
    model of the specification says what they stand for. *)

Class tree_h : Type := {
  (* LY_NODE_TYPE, the values of [nodetype] *)
  LY_NODE_CONTAINER : Z;
  LY_NODE_CHOICE : Z;
  LY_NODE_LEAF : Z;
  LY_NODE_LEAFLIST : Z;
  LY_NODE_LIST : Z;
  LY_NODE_USES : Z;
  LY_NODE_GROUPING : Z;
  (* bits of [flags] *)
  LY_NODE_CONFIG_W : Z;
  LY_NODE_CONFIG_R : Z;
  LY_NODE_CONFIG_MASK : Z;
  LY_NODE_STATUS_CURR : Z;
  LY_NODE_STATUS_DEPRC : Z;
  LY_NODE_STATUS_OBSLT : Z;
  (* LY_DATA_TYPE, the values of [base] *)
  LY_TYPE_ENUM : Z;
  LY_TYPE_IDENT : Z
}.

(** A pointer that the printer compares with another one: its address and
    the structure it points to, as far as the printer reads it.  A pointer
    that is only dereferenced is modelled by its target, under [option]
    where the code tests it against NULL.  The tree is never written, so a
    target is the same at every read.  A function that only compares a
    pointer takes it with any target type. *)
Record pointer (A : Type) : Type := Pointer {
  addr : Z;
  target : A
}.
Arguments Pointer {A} _ _.
Arguments addr {A} _.
Arguments target {A} _.

(** [p == q] *)
Definition ptr_eqb {A B : Type} (p : pointer A) (q : pointer B) : bool :=
  addr p =? addr q.

(** Modelled from the spec: [struct ly_module] of tree.h, as seen through
    the [module] member of another structure (the owning module, a
    back-reference); yang.c reads its [name] and [prefix]. *)
Record ly_module_hdr : Type := {
  hdr_name : string;
  hdr_prefix : string
}.

(** The members [name], [dsc], [ref] and [flags], with which [struct
    ly_mnode] starts, as do the structures that the printer casts to
    [struct ly_mnode *]: typedefs, identities and enum entries. *)
Class Common (A : Type) : Type := {
  name : A -> string;
  dsc : A -> option string;
  ref : A -> option string;
  flags : A -> Z
}.

#[local] Unset Elimination Schemes.

(** Modelled from the spec: [struct ly_ident] of tree.h, an identity with
    its name, its common metadata, its owning module and its optional base
    identity ([base] may be NULL). *)
Inductive ly_ident : Type := Ident {
  ident_name : string;
  ident_dsc : option string;
  ident_ref : option string;
  ident_flags : Z;
  ident_module : pointer ly_module_hdr;
  ident_base : option ly_ident
}.

#[local] Set Elimination Schemes.

#[export] Instance ly_ident_common : Common ly_ident :=
  {| name := ident_name; dsc := ident_dsc; ref := ident_ref;
     flags := ident_flags |}.

(** Modelled from the spec: an entry of [type->info.enums.list], with
    name, common metadata and value. *)
Record ly_type_enum : Type := {
  enum_name : string;
  enum_dsc : option string;
  enum_ref : option string;
  enum_flags : Z;
  value : Z
}.

#[export] Instance ly_type_enum_common : Common ly_type_enum :=
  {| name := enum_name; dsc := enum_dsc; ref := enum_ref;
     flags := enum_flags |}.

(** Modelled from the spec: [struct ly_tpdf] of tree.h as seen through
    [type->der], the derived-type definition that gives a type its name.
    yang.c reads its [name]; [der_module] is the module the definition
    belongs to, which the specification speaks of and yang.c never
    reads. *)
Record ly_tpdf_hdr : Type := {
  der_name : string;
  der_module : pointer ly_module_hdr
}.

(** Modelled from the spec: [struct ly_type] of tree.h.  [prefix] may be
    NULL; [base] is the base kind.  The members of the union
    [info] are kept side by side: [enums] is [info.enums] ([count] is the
    length of [list]) and [info_ident_ref] is [info.ident.ref]. *)
Record ly_type : Type := {
  prefix : option string;
  base : Z;
  der : ly_tpdf_hdr;
  enums : list ly_type_enum;
  info_ident_ref : ly_ident
}.

(** Modelled from the spec: [struct ly_tpdf] of tree.h, a typedef with
    its name, its common metadata and the type it contains. *)
Record ly_tpdf : Type := {
  tpdf_name : string;
  tpdf_dsc : option string;
  tpdf_ref : option string;
  tpdf_flags : Z;
  tpdf_module : pointer ly_module_hdr;
  tpdf_type : ly_type
}.

#[export] Instance ly_tpdf_common : Common ly_tpdf :=
  {| name := tpdf_name; dsc := tpdf_dsc; ref := tpdf_ref;
     flags := tpdf_flags |}.

#[local] Unset Elimination Schemes.

(** Modelled from the spec: [struct ly_mnode] of tree.h, a node of the
    schema tree, with the members of its variants side by side:
    [tpdf] (with [tpdf_size] its length) of [ly_mnode_container],
    [ly_mnode_list] and [ly_mnode_grp], [type] of [ly_mnode_leaf] and
    [ly_mnode_leaflist], [keys] (with [keys_size]) of [ly_mnode_list].
    The casts of the printer between these structures are the identity.
    [child] is the chain [child], [child->next], ... that [LY_TREE_FOR]
    walks; [parent] is NULL in a top-level node, and else the parent as
    far as the printer reads it; [keys] are the leaves that the entries of
    the array point to. *)
Inductive ly_mnode : Type := Mnode {
  mnode_name : string;
  mnode_dsc : option string;
  mnode_ref : option string;
  mnode_flags : Z;
  nodetype : Z;
  module : pointer ly_module_hdr;
  parent : option ly_mnode;
  child : list ly_mnode;
  tpdf : list ly_tpdf;
  type : ly_type;
  keys : list ly_mnode
}.

#[local] Set Elimination Schemes.

#[export] Instance ly_mnode_common : Common ly_mnode :=
  {| name := mnode_name; dsc := mnode_dsc; ref := mnode_ref;
     flags := mnode_flags |}.

(** Modelled from the spec: an entry of [module->imp] of tree.h.  The
    revision dates [rev] of an import or include and [date] of a revision
    are character arrays. *)
Record ly_import : Type := {
  imp_module : ly_module_hdr;
  imp_prefix : string;
  imp_rev : string
}.

(** Modelled from the spec: [struct ly_submodule] of tree.h as seen
    through [inc[i].submodule]; yang.c reads its [name]. *)
Record ly_submodule : Type := {
  submodule_name : string
}.

(** Modelled from the spec: an entry of [module->inc]. *)
Record ly_include : Type := {
  inc_submodule : ly_submodule;
  inc_rev : string
}.

(** Modelled from the spec: an entry of [module->rev]; [dsc] and [ref]
    may be NULL. *)
Record ly_revision : Type := {
  date : string;
  rev_dsc : option string;
  rev_ref : option string
}.

(** Modelled from the spec: [struct ly_module] of tree.h; the arrays
    carry their sizes ([imp_size], [inc_size], ...) as their lengths and
    [data] is the chain of the top-level nodes. *)
Record ly_module : Type := {
  mod_name : string;
  ns : string;
  mod_prefix : string;
  version : Z;
  imp : list ly_import;
  inc : list ly_include;
  org : option string;
  contact : option string;
  mod_dsc : option string;
  mod_ref : option string;
  mod_rev : list ly_revision;
  ident : list ly_ident;
  mod_tpdf : list ly_tpdf;
  data : list ly_mnode
}.

(** A flag test [x & BIT] in a condition. *)
Definition bit_set (x bit : Z) : bool := negb (Z.land x bit =? 0).

(** A pointer in a condition. *)
Definition non_null {A : Type} (p : option A) : bool :=
  match p with
  | Some _ => true
  | None => false
  end.

(** [rev[0]] in a condition: the array holds a non-empty string. *)
Definition first_char_set (s : string) : bool :=
  match s with
  | EmptyString => false
  | String _ _ => true
  end.

(** A loop [for (i = 0; i < size; i++)] over an array, whose body gets
    [i] and the entry [l[i]]. *)
Fixpoint for_each_i {A St : Type} (body : St -> nat -> A -> St) (i : nat)
  (l : list A) (s : St) : St :=
  match l with
  | [] => s
  | x :: l' => for_each_i body (S i) l' (body s i x)
  end.

(** ** printer/yang.c *)

Section Printer.

Context {H : tree_h} {FILE : Type} {stream : Stream FILE}.

(** The loop of [yang_print_text]:
    [while ((s = strchr(t, '\n'))) { fwrite(t, sizeof *t, s - t + 1, f);
       t = s + 1; fprintf(f, "%*s", LEVEL, INDENT); }]
    It returns the stream and the final [t]. *)
Equations? yang_print_text_loop (f : FILE) (level : nat) (t : string)
  : FILE * string by wf (String.length t) lt :=
  yang_print_text_loop f level t with inspect (strchr t nl_char) => {
    | exist _ (Some s) Hs =>
        let f := discard (fwrite f (take (s + 1) t)) in
        let t' := advance (s + 1) t in
        let f := discard (fprintf f (indent level)) in
        yang_print_text_loop f level t';
    | exist _ None _ => (f, t) }.
Proof.
  subst t'. rewrite advance_length. apply strchr_lt in Hs. lia.
Qed.

(** [yang_print_text]: the label on a line, then the text in double
    quotes one level deeper. *)
Definition yang_print_text (f : FILE) (level : nat) (name text : string)
  : FILE :=
  let f := discard (fprintf f (indent level ++ name ++ nl)) in
  let level := S level in
  let f := discard (fprintf f (indent level ++ dq)) in
  let t := text in
  let '(f, t) := yang_print_text_loop f level t in
  let f := discard (fprintf f (t ++ dq ++ ";" ++ nl ++ nl)) in
  f.

(** Covers: description, reference, status *)
Definition yang_print_mnode_common {A : Type} `{Common A} (f : FILE)
  (level : nat) (mnode : A) : FILE :=
  let f :=
    if bit_set (flags mnode) LY_NODE_STATUS_CURR then
      discard (fprintf f (indent level ++ "status " ++ dq ++ "current" ++ dq ++ ";" ++ nl))
    else if bit_set (flags mnode) LY_NODE_STATUS_DEPRC then
      discard (fprintf f (indent level ++ "status " ++ dq ++ "deprecated" ++ dq ++ ";" ++ nl))
    else if bit_set (flags mnode) LY_NODE_STATUS_OBSLT then
      discard (fprintf f (indent level ++ "status " ++ dq ++ "obsolete" ++ dq ++ ";" ++ nl))
    else f in
  let f :=
    match dsc mnode with
    | Some d => yang_print_text f level "description" d
    | None => f
    end in
  let f :=
    match ref mnode with
    | Some r => yang_print_text f level "reference" r
    | None => f
    end in
  f.

(** Covers: config, description, reference, status *)
Definition yang_print_mnode_common2 (f : FILE) (level : nat)
  (mnode : ly_mnode) : FILE :=
  let f :=
    if match parent mnode with
       | None => true
       | Some p =>
           negb (Z.land (flags p) LY_NODE_CONFIG_MASK
                 =? Z.land (flags mnode) LY_NODE_CONFIG_MASK)
       end
    then
      (* print config only when it differs from the parent or in root *)
      if bit_set (flags mnode) LY_NODE_CONFIG_W then
        discard (fprintf f (indent level ++ "config " ++ dq ++ "true" ++ dq ++ ";" ++ nl))
      else if bit_set (flags mnode) LY_NODE_CONFIG_R then
        discard (fprintf f (indent level ++ "config " ++ dq ++ "false" ++ dq ++ ";" ++ nl))
      else f
    else f in
  yang_print_mnode_common f level mnode.

Definition yang_print_type {M : Type} (f : FILE) (level : nat)
  (module : pointer M) (type : ly_type) : FILE :=
  let f :=
    match prefix type with
    | Some p =>
        discard (fprintf f (indent level ++ "type " ++ p ++ ":" ++ der_name (der type) ++ " {" ++ nl))
    | None =>
        discard (fprintf f (indent level ++ "type " ++ der_name (der type) ++ " {" ++ nl))
    end in
  let level := S level in
  let f :=
    if base type =? LY_TYPE_ENUM then
      fold_left
        (fun f e =>
           let f := discard (fprintf f (indent level ++ "enum " ++ name e ++ " {" ++ nl)) in
           let level := S level in
           let f := yang_print_mnode_common f level e in
           let f := discard (fprintf f (indent level ++ "value " ++ string_of_Z (value e) ++ ";" ++ nl)) in
           let level := Nat.pred level in
           discard (fprintf f (indent level ++ "}" ++ nl)))
        (enums type) f
    else if base type =? LY_TYPE_IDENT then
      let ref := info_ident_ref type in
      if ptr_eqb module (ident_module ref) then
        discard (fprintf f (indent level ++ "base " ++ name ref ++ ";" ++ nl))
      else
        discard (fprintf f (indent level ++ "base " ++ hdr_prefix (target (ident_module ref)) ++ ":" ++ name ref ++ ";" ++ nl))
    else
      (* TODO other cases *)
      f in
  let level := Nat.pred level in
  discard (fprintf f (indent level ++ "}" ++ nl)).

Definition yang_print_typedef {M : Type} (f : FILE) (level : nat)
  (module : pointer M) (tpdf : ly_tpdf) : FILE :=
  let f := discard (fprintf f (indent level ++ "typedef " ++ name tpdf ++ " {" ++ nl)) in
  let level := S level in
  let f := yang_print_mnode_common f level tpdf in
  let f := yang_print_type f level module (tpdf_type tpdf) in
  let level := Nat.pred level in
  discard (fprintf f (indent level ++ "}" ++ nl)).

Definition yang_print_identity (f : FILE) (level : nat) (ident : ly_ident)
  : FILE :=
  let f := discard (fprintf f (indent level ++ "identity " ++ name ident ++ " {" ++ nl)) in
  let level := S level in
  let f := yang_print_mnode_common f level ident in
  let f :=
    match ident_base ident with
    | Some b =>
        if ptr_eqb (ident_module b) (ident_module ident) then
          discard (fprintf f (indent level ++ "base " ++ name b ++ ";" ++ nl))
        else
          discard (fprintf f (indent level ++ "base " ++ hdr_prefix (target (ident_module b)) ++ ":" ++ name b ++ ";" ++ nl))
    | None => f
    end in
  let level := Nat.pred level in
  discard (fprintf f (indent level ++ "}" ++ nl)).

(** The node printers call [yang_print_mnode] for the children and
    [yang_print_mnode] calls them back.  Each one is first written over the
    function [print_mnode] it calls for a child; [yang_print_mnode] then
    closes the recursion, on the structure of the node. *)

Section Nodes.

Variable print_mnode : FILE -> nat -> ly_mnode -> Z -> FILE.

Definition yang_print_container_ (f : FILE) (level : nat) (mnode : ly_mnode)
  : FILE :=
  let cont := mnode in
  let f := discard (fprintf f (indent level ++ "container " ++ name mnode ++ " {" ++ nl)) in
  let level := S level in
  let f := yang_print_mnode_common2 f level mnode in
  let f :=
    fold_left (fun f t => yang_print_typedef f level (module mnode) t)
      (tpdf cont) f in
  let f :=
    fold_left
      (fun f sub =>
         print_mnode f level sub
           (Z.lor (Z.lor (Z.lor (Z.lor (Z.lor (Z.lor
              LY_NODE_CHOICE LY_NODE_CONTAINER) LY_NODE_LEAF)
              LY_NODE_LEAFLIST) LY_NODE_LIST) LY_NODE_USES)
              LY_NODE_GROUPING))
      (child mnode) f in
  let level := Nat.pred level in
  discard (fprintf f (indent level ++ "}" ++ nl)).

Definition yang_print_choice_ (f : FILE) (level : nat) (mnode : ly_mnode)
  : FILE :=
  let f := discard (fprintf f (indent level ++ "choice " ++ name mnode ++ " {" ++ nl)) in
  let level := S level in
  let f := yang_print_mnode_common2 f level mnode in
  let f :=
    fold_left
      (fun f sub =>
         print_mnode f level sub
           (Z.lor (Z.lor (Z.lor
              LY_NODE_CONTAINER LY_NODE_LEAF)
              LY_NODE_LEAFLIST) LY_NODE_LIST))
      (child mnode) f in
  let level := Nat.pred level in
  discard (fprintf f (indent level ++ "}" ++ nl)).

Definition yang_print_list_ (f : FILE) (level : nat) (mnode : ly_mnode)
  : FILE :=
  let list := mnode in
  let keys_size := List.length (keys list) in
  let f := discard (fprintf f (indent level ++ "list " ++ name mnode ++ " {" ++ nl)) in
  let level := S level in
  let f := yang_print_mnode_common2 f level mnode in
  let f :=
    if negb (keys_size =? 0)%nat then
      let f := discard (fprintf f (indent level ++ "key " ++ dq)) in
      let f :=
        for_each_i
          (fun f i key =>
             discard (fprintf f (name key ++
               (if (i + 1 <? keys_size)%nat then " " else EmptyString))))
          O (keys list) f in
      discard (fprintf f (dq ++ ";" ++ nl))
    else f in
  let f :=
    fold_left (fun f t => yang_print_typedef f level (module list) t)
      (tpdf list) f in
  let f :=
    fold_left
      (fun f sub =>
         print_mnode f level sub
           (Z.lor (Z.lor (Z.lor (Z.lor (Z.lor (Z.lor
              LY_NODE_CHOICE LY_NODE_CONTAINER) LY_NODE_LEAF)
              LY_NODE_LEAFLIST) LY_NODE_LIST) LY_NODE_USES)
              LY_NODE_GROUPING))
      (child mnode) f in
  let level := Nat.pred level in
  discard (fprintf f (indent level ++ "}" ++ nl)).

Definition yang_print_grouping_ (f : FILE) (level : nat) (mnode : ly_mnode)
  : FILE :=
  let grp := mnode in
  let f := discard (fprintf f (indent level ++ "grouping " ++ name mnode ++ " {" ++ nl)) in
  let level := S level in
  let f := yang_print_mnode_common f level mnode in
  let f :=
    fold_left (fun f t => yang_print_typedef f level (module mnode) t)
      (tpdf grp) f in
  let f :=
    fold_left
      (fun f node =>
         print_mnode f level node
           (Z.lor (Z.lor (Z.lor (Z.lor (Z.lor (Z.lor
              LY_NODE_CHOICE LY_NODE_CONTAINER) LY_NODE_LEAF)
              LY_NODE_LEAFLIST) LY_NODE_LIST) LY_NODE_USES)
              LY_NODE_GROUPING))
      (child mnode) f in
  let level := Nat.pred level in
  discard (fprintf f (indent level ++ "}" ++ nl)).

End Nodes.

Definition yang_print_leaf (f : FILE) (level : nat) (mnode : ly_mnode)
  : FILE :=
  let leaf := mnode in
  let f := discard (fprintf f (indent level ++ "leaf " ++ name mnode ++ " {" ++ nl)) in
  let level := S level in
  let f := yang_print_mnode_common2 f level mnode in
  let f := yang_print_type f level (module mnode) (type leaf) in
  let level := Nat.pred level in
  discard (fprintf f (indent level ++ "}" ++ nl)).

Definition yang_print_leaflist (f : FILE) (level : nat) (mnode : ly_mnode)
  : FILE :=
  let llist := mnode in
  let f := discard (fprintf f (indent level ++ "leaf-list " ++ name mnode ++ " {" ++ nl)) in
  let level := S level in
  let f := yang_print_mnode_common2 f level mnode in
  let f := yang_print_type f level (module mnode) (type llist) in
  let level := Nat.pred level in
  discard (fprintf f (indent level ++ "}" ++ nl)).

Definition yang_print_uses (f : FILE) (level : nat) (mnode : ly_mnode)
  : FILE :=
  let uses := mnode in
  let f := discard (fprintf f (indent level ++ "uses " ++ name uses ++ " {" ++ nl)) in
  let level := S level in
  let f := yang_print_mnode_common f level mnode in
  let level := Nat.pred level in
  discard (fprintf f (indent level ++ "}" ++ nl)).

(** The [switch] compares [mnode->nodetype & mask] with the case labels. *)
Fixpoint yang_print_mnode (f : FILE) (level : nat) (mnode : ly_mnode)
  (mask : Z) {struct mnode} : FILE :=
  let selector := Z.land (nodetype mnode) mask in
  if selector =? LY_NODE_CONTAINER then
    yang_print_container_ yang_print_mnode f level mnode
  else if selector =? LY_NODE_CHOICE then
    yang_print_choice_ yang_print_mnode f level mnode
  else if selector =? LY_NODE_LEAF then
    yang_print_leaf f level mnode
  else if selector =? LY_NODE_LEAFLIST then
    yang_print_leaflist f level mnode
  else if selector =? LY_NODE_LIST then
    yang_print_list_ yang_print_mnode f level mnode
  else if selector =? LY_NODE_USES then
    yang_print_uses f level mnode
  else if selector =? LY_NODE_GROUPING then
    yang_print_grouping_ yang_print_mnode f level mnode
  else f.

Definition yang_print_container := yang_print_container_ yang_print_mnode.
Definition yang_print_choice := yang_print_choice_ yang_print_mnode.
Definition yang_print_list := yang_print_list_ yang_print_mnode.
Definition yang_print_grouping := yang_print_grouping_ yang_print_mnode.

(** The bodies of the loops of [yang_print_model] over [module->imp],
    [module->inc] and [module->rev], in this order.

    The loop over the includes reads [module->imp[i]] with the index [i]
    of the include.  Beyond [imp_size] that is a read outside the array,
    whose behaviour C leaves undefined: the model gives no result ([None])
    there. *)
Definition yang_print_model_import (level : nat) (f : FILE) (imp_i : ly_import)
  : FILE :=
  let f := discard (fprintf f (indent level ++ "import " ++ dq ++ hdr_name (imp_module imp_i) ++ dq ++ " {" ++ nl)) in
  let level := S level in
  let f := yang_print_text f level "prefix" (imp_prefix imp_i) in
  let f :=
    if first_char_set (imp_rev imp_i) then
      yang_print_text f level "revision-date" (imp_rev imp_i)
    else f in
  let level := Nat.pred level in
  discard (fprintf f (indent level ++ "}" ++ nl)).

Definition yang_print_model_include (level : nat) (imp : list ly_import)
  (f : option FILE) (i : nat) (inc_i : ly_include) : option FILE :=
  match f with
  | None => None
  | Some f =>
      if first_char_set (inc_rev inc_i) then
        let f := discard (fprintf f (indent level ++ "include " ++ dq ++ submodule_name (inc_submodule inc_i) ++ dq ++ " {" ++ nl)) in
        match nth_error imp i with
        | Some imp_i =>
            let f := yang_print_text f (level + 1) "revision-date" (imp_rev imp_i) in
            Some (discard (fprintf f (indent level ++ "}" ++ nl)))
        | None => None
        end
      else
        Some (discard (fprintf f (indent level ++ "include " ++ dq ++ submodule_name (inc_submodule inc_i) ++ dq ++ ";" ++ nl)))
  end.

Definition yang_print_model_revision (level : nat) (f : FILE)
  (rev_i : ly_revision) : FILE :=
  if non_null (rev_dsc rev_i) || non_null (rev_ref rev_i) then
    let f := discard (fprintf f (indent level ++ "revision " ++ dq ++ date rev_i ++ dq ++ " {" ++ nl)) in
    let level := S level in
    let f :=
      match rev_dsc rev_i with
      | Some t => yang_print_text f level "description" t
      | None => f
      end in
    let f :=
      match rev_ref rev_i with
      | Some t => yang_print_text f level "reference" t
      | None => f
      end in
    let level := Nat.pred level in
    discard (fprintf f (indent level ++ "}" ++ nl))
  else
    yang_print_text f level "revision" (date rev_i).

Definition yang_print_model (f : FILE) (module : pointer ly_module)
  : option (FILE * Z) :=
  let m := target module in
  let level := O in
  let f := discard (fprintf f ("module " ++ mod_name m ++ " {" ++ nl)) in
  let level := S level in
  let f := discard (fprintf f (indent level ++ "namespace " ++ dq ++ ns m ++ dq ++ ";" ++ nl)) in
  let f := discard (fprintf f (indent level ++ "prefix " ++ dq ++ mod_prefix m ++ dq ++ ";" ++ nl)) in
  let f :=
    if negb (version m =? 0) then
      discard (fprintf f (indent level ++ "yang-version " ++ dq ++
                 (if version m =? 1 then "1.0" else "1.1") ++ dq ++ ";" ++ nl))
    else f in
  let f := fold_left (yang_print_model_import level) (imp m) f in
  match for_each_i (yang_print_model_include level (imp m)) O (inc m) (Some f)
  with
  | None => None
  | Some f =>
      let f :=
        match org m with
        | Some t => yang_print_text f level "organization" t
        | None => f
        end in
      let f :=
        match contact m with
        | Some t => yang_print_text f level "contact" t
        | None => f
        end in
      let f :=
        match mod_dsc m with
        | Some t => yang_print_text f level "description" t
        | None => f
        end in
      let f :=
        match mod_ref m with
        | Some t => yang_print_text f level "reference" t
        | None => f
        end in
      let f := fold_left (yang_print_model_revision level) (mod_rev m) f in
      let f := fold_left (fun f i => yang_print_identity f level i) (ident m) f in
      let f := fold_left (fun f t => yang_print_typedef f level module t) (mod_tpdf m) f in
      let f :=
        fold_left
          (fun f mnode =>
             yang_print_mnode f level mnode
               (Z.lor (Z.lor (Z.lor (Z.lor (Z.lor (Z.lor
                  LY_NODE_CHOICE LY_NODE_CONTAINER) LY_NODE_LEAF)
                  LY_NODE_LEAFLIST) LY_NODE_LIST) LY_NODE_USES)
                  LY_NODE_GROUPING))
          (data m) f in
      let f := discard (fprintf f ("}" ++ nl)) in
      Some (f, EXIT_SUCCESS)
  end.

End Printer.

(** ** The text the printer writes

    On the stream [buffer] a write appends, so every printing function
    appends a text to the stream.  The texts are described here in the
    words of the specification. *)

(** The text with the padding [pad] put after each of its newlines: every
    further physical line starts with the padding, the line breaks and
    the rest are kept. *)
Fixpoint reindent (pad : string) (text : string) : string :=
  match text with
  | EmptyString => EmptyString
  | String a text' =>
      if Ascii.eqb a nl_char then String a (pad ++ reindent pad text')
      else String a (reindent pad text')
  end.

(** The label on its own line, the body one level deeper, in double
    quotes, closed by a semicolon and followed by an empty line. *)
Definition text_block (level : nat) (label text : string) : string :=
  indent level ++ label ++ nl ++
  indent (S level) ++ dq ++ reindent (indent (S level)) text ++ dq ++ ";" ++ nl ++ nl.

Definition opt_text (level : nat) (label : string) (text : option string)
  : string :=
  match text with
  | Some t => text_block level label t
  | None => EmptyString
  end.

(** The status keyword of a node: current before deprecated before
    obsolete, none when no status bit is set. *)
Definition status_keyword {H : tree_h} (flags : Z) : option string :=
  if bit_set flags LY_NODE_STATUS_CURR then Some "current"
  else if bit_set flags LY_NODE_STATUS_DEPRC then Some "deprecated"
  else if bit_set flags LY_NODE_STATUS_OBSLT then Some "obsolete"
  else None.

(** A statement [keyword "argument";] on a line of its own. *)
Definition statement_line (level : nat) (keyword argument : string) : string :=
  indent level ++ keyword ++ " " ++ dq ++ argument ++ dq ++ ";" ++ nl.

Definition status_line {H : tree_h} (level : nat) (flags : Z) : string :=
  match status_keyword flags with
  | Some k => statement_line level "status" k
  | None => EmptyString
  end.

Definition common_text {H : tree_h} {A : Type} `{Common A} (level : nat)
  (x : A) : string :=
  status_line level (flags x) ++
  opt_text level "description" (dsc x) ++
  opt_text level "reference" (ref x).

(** Every include with a revision date has an import at its index, so
    that the loop over the includes stays inside [module->imp]. *)
Fixpoint includes_in_range_from (i : nat) (inc : list ly_include)
  (imp_size : nat) : bool :=
  match inc with
  | [] => true
  | inc_i :: inc' =>
      (negb (first_char_set (inc_rev inc_i)) || (i <? imp_size)%nat)
      && includes_in_range_from (S i) inc' imp_size
  end.

Definition includes_in_range (m : ly_module) : bool :=
  includes_in_range_from O (inc m) (List.length (imp m)).

(** The number of write calls of [yang_print_model]: what it leaves in a
    stream that counts them. *)
Definition write_calls {H : tree_h} (module : pointer ly_module) : nat :=
  match yang_print_model (FILE := nat) O module with
  | Some (n, _) => n
  | None => O
  end.

(** The texts of the write calls of [yang_print_model], in their order:
    what it leaves in a stream that records them. *)
Definition write_texts {H : tree_h} (module : pointer ly_module)
  : list string :=
  match yang_print_model (FILE := list string) [] module with
  | Some (texts, _) => texts
  | None => []
  end.

(** The write calls with the given texts, one after the other, on a
    stream, with their results left aside. *)
Definition replay {FILE : Type} {stream : Stream FILE} (texts : list string)
  (f : FILE) : FILE :=
  fold_left (fun f s => discard (fprintf f s)) texts f.

(** A stream is what the recorded write calls make of the stream [f0]. *)
Definition replayed {FILE : Type} {stream : Stream FILE} (f0 f : FILE)
  (texts : list string) : Prop :=
  f = replay texts f0.

(** The number of line breaks of a text. *)
Fixpoint line_breaks (s : string) : nat :=
  match s with
  | EmptyString => O
  | String a s' =>
      if Ascii.eqb a nl_char then S (line_breaks s') else line_breaks s'
  end.

(** The texts of a list, one after the other. *)
Definition concat_all (l : list string) : string :=
  fold_right append EmptyString l.

(** The text that a printing function writes to an empty buffer. *)
Definition written (print : string -> string) : string := print EmptyString.

(** The name in a type statement: with the prefix and a colon before it
    when the prefix of the type is set. *)
Definition type_name (type : ly_type) : string :=
  match prefix type with
  | Some p => p ++ ":" ++ der_name (der type)
  | None => der_name (der type)
  end.

Definition enum_text {H : tree_h} (level : nat) (e : ly_type_enum) : string :=
  indent level ++ "enum " ++ name e ++ " {" ++ nl ++
  common_text (S level) e ++
  indent (S level) ++ "value " ++ string_of_Z (value e) ++ ";" ++ nl ++
  indent level ++ "}" ++ nl.

(** The body of a type statement: the enum entries of an enumeration, the
    base of an identity reference (with the prefix of its module when that
    is not [module]), nothing for the other kinds. *)
Definition type_body {H : tree_h} {M : Type} (level : nat)
  (module : pointer M) (type : ly_type) : string :=
  if base type =? LY_TYPE_ENUM then
    concat_all (map (enum_text level) (enums type))
  else if base type =? LY_TYPE_IDENT then
    if ptr_eqb module (ident_module (info_ident_ref type)) then
      indent level ++ "base " ++ name (info_ident_ref type) ++ ";" ++ nl
    else
      indent level ++ "base " ++
      hdr_prefix (target (ident_module (info_ident_ref type))) ++ ":" ++
      name (info_ident_ref type) ++ ";" ++ nl
  else EmptyString.

(** A revision of the module: with a description or a reference, the
    line with the date and an opening brace, the two texts that are
    present and the closing brace; with neither, what the text printer
    makes of the label [revision] and the date. *)
Definition revision_text (level : nat) (r : ly_revision) : string :=
  match rev_dsc r, rev_ref r with
  | None, None =>
      indent level ++ "revision" ++ nl ++
      indent (S level) ++ dq ++ reindent (indent (S level)) (date r) ++ dq ++ ";" ++ nl ++ nl
  | d, rf =>
      indent level ++ "revision " ++ dq ++ date r ++ dq ++ " {" ++ nl ++
      opt_text (S level) "description" d ++
      opt_text (S level) "reference" rf ++
      indent level ++ "}" ++ nl
  end.

(** The key statement of a list: none without keys, else the names of
    the keys in their order, with a space between two of them, on one
    line. *)
Definition key_line (level : nat) (names : list string) : string :=
  match names with
  | [] => EmptyString
  | _ :: _ => indent level ++ "key " ++ dq ++ String.concat " " names ++ dq ++ ";" ++ nl
  end.

(** The node with other children. *)
Definition with_child (mnode : ly_mnode) (l : list ly_mnode) : ly_mnode :=
  Mnode (mnode_name mnode) (mnode_dsc mnode) (mnode_ref mnode)
    (mnode_flags mnode) (nodetype mnode) (module mnode) (parent mnode) l
    (tpdf mnode) (type mnode) (keys mnode).

(** The values of [nodetype] that yang.c names are flags: none is zero
    and no two of them share a bit. *)
Fixpoint disjoint_flags (l : list Z) : bool :=
  match l with
  | [] => true
  | a :: l' =>
      negb (a =? 0) && forallb (fun b => Z.land a b =? 0) l'
      && disjoint_flags l'
  end.

Definition node_types_are_flags {H : tree_h} : bool :=
  disjoint_flags
    [LY_NODE_CONTAINER; LY_NODE_CHOICE; LY_NODE_LEAF; LY_NODE_LEAFLIST;
     LY_NODE_LIST; LY_NODE_USES; LY_NODE_GROUPING].

(** Writing after a text [p] that is already in the buffer. *)
Definition after (p : string) (f g : string) : Prop := g = p ++ f.

(** Every write call of a stream with failures is counted, failed or
    not. *)
Definition counted (start : nat) (f : flaky) (n : nat) : Prop :=
  calls f = (start + n)%nat.

(** ** The printed text as a function of the tree

    What the printer appends to a buffer, written without a stream: the
    text of every construct is put together from the texts of its parts. *)

(** The config line of a node: none under a parent with the same config
    bits, and none without a config bit. *)
Definition config_text {H : tree_h} (level : nat) (mnode : ly_mnode) : string :=
  if match parent mnode with
     | None => true
     | Some p =>
         negb (Z.land (flags p) LY_NODE_CONFIG_MASK
               =? Z.land (flags mnode) LY_NODE_CONFIG_MASK)
     end
  then
    if bit_set (flags mnode) LY_NODE_CONFIG_W then
      statement_line level "config" "true"
    else if bit_set (flags mnode) LY_NODE_CONFIG_R then
      statement_line level "config" "false"
    else EmptyString
  else EmptyString.

(** A statement with a body in braces: the keyword and the name on the
    opening line, the closing brace on a line of its own. *)
Definition block (level : nat) (keyword name body : string) : string :=
  indent level ++ keyword ++ " " ++ name ++ " {" ++ nl ++
  body ++
  indent level ++ "}" ++ nl.

Definition type_text {H : tree_h} {M : Type} (level : nat)
  (module : pointer M) (type : ly_type) : string :=
  block level "type" (type_name type) (type_body (S level) module type).

Definition typedef_text {H : tree_h} {M : Type} (level : nat)
  (module : pointer M) (tpdf : ly_tpdf) : string :=
  block level "typedef" (name tpdf)
    (common_text (S level) tpdf ++
     type_text (S level) module (tpdf_type tpdf)).

(** The base of an identity: bare when the base belongs to the module of
    the identity, with the prefix of its module otherwise. *)
Definition identity_base_text (level : nat) (ident : ly_ident) : string :=
  match ident_base ident with
  | Some b =>
      if ptr_eqb (ident_module b) (ident_module ident) then
        indent level ++ "base " ++ name b ++ ";" ++ nl
      else
        indent level ++ "base " ++ hdr_prefix (target (ident_module b)) ++
        ":" ++ name b ++ ";" ++ nl
  | None => EmptyString
  end.

Definition identity_text {H : tree_h} (level : nat) (ident : ly_ident)
  : string :=
  block level "identity" (name ident)
    (common_text (S level) ident ++ identity_base_text (S level) ident).

(** The kinds of nodes allowed in the module, a container, a list and a
    grouping, and those allowed in a choice. *)
Definition all_kinds {H : tree_h} : Z :=
  Z.lor (Z.lor (Z.lor (Z.lor (Z.lor (Z.lor
    LY_NODE_CHOICE LY_NODE_CONTAINER) LY_NODE_LEAF)
    LY_NODE_LEAFLIST) LY_NODE_LIST) LY_NODE_USES)
    LY_NODE_GROUPING.

Definition choice_kinds {H : tree_h} : Z :=
  Z.lor (Z.lor (Z.lor
    LY_NODE_CONTAINER LY_NODE_LEAF)
    LY_NODE_LEAFLIST) LY_NODE_LIST.

(** A child in a choice, in the words of the specification: printed by
    the printer of its kind when it is a container, a leaf, a leaf-list or
    a list, and passed over otherwise. *)
Definition print_in_choice {H : tree_h} {FILE : Type} {stream : Stream FILE}
  (level : nat) (f : FILE) (sub : ly_mnode) : FILE :=
  if nodetype sub =? LY_NODE_CONTAINER then yang_print_container f level sub
  else if nodetype sub =? LY_NODE_LEAF then yang_print_leaf f level sub
  else if nodetype sub =? LY_NODE_LEAFLIST then yang_print_leaflist f level sub
  else if nodetype sub =? LY_NODE_LIST then yang_print_list f level sub
  else f.

(** The kind of a node is one of the four that a choice allows, or it has
    no bit of them: as the kinds are flags, that is a grouping, a choice,
    a uses, or a kind that yang.c does not name. *)
Definition one_kind_for_choice {H : tree_h} (sub : ly_mnode) : Prop :=
  In (nodetype sub)
    [LY_NODE_CONTAINER; LY_NODE_LEAF; LY_NODE_LEAFLIST; LY_NODE_LIST]
  \/ Z.land (nodetype sub) choice_kinds = 0.

(** The text of a node under a mask: that of its kind, or nothing when
    the mask leaves no kind. *)
Fixpoint mnode_text {H : tree_h} (level : nat) (mnode : ly_mnode) (mask : Z)
  {struct mnode} : string :=
  let children mask' :=
    concat_all (map (fun sub => mnode_text (S level) sub mask') (child mnode)) in
  let typedefs :=
    concat_all (map (typedef_text (S level) (module mnode)) (tpdf mnode)) in
  let selector := Z.land (nodetype mnode) mask in
  if selector =? LY_NODE_CONTAINER then
    block level "container" (name mnode)
      (config_text (S level) mnode ++ common_text (S level) mnode ++
       typedefs ++ children all_kinds)
  else if selector =? LY_NODE_CHOICE then
    block level "choice" (name mnode)
      (config_text (S level) mnode ++ common_text (S level) mnode ++
       children choice_kinds)
  else if selector =? LY_NODE_LEAF then
    block level "leaf" (name mnode)
      (config_text (S level) mnode ++ common_text (S level) mnode ++
       type_text (S level) (module mnode) (type mnode))
  else if selector =? LY_NODE_LEAFLIST then
    block level "leaf-list" (name mnode)
      (config_text (S level) mnode ++ common_text (S level) mnode ++
       type_text (S level) (module mnode) (type mnode))
  else if selector =? LY_NODE_LIST then
    block level "list" (name mnode)
      (config_text (S level) mnode ++ common_text (S level) mnode ++
       key_line (S level) (map name (keys mnode)) ++
       typedefs ++ children all_kinds)
  else if selector =? LY_NODE_USES then
    block level "uses" (name mnode) (common_text (S level) mnode)
  else if selector =? LY_NODE_GROUPING then
    block level "grouping" (name mnode)
      (common_text (S level) mnode ++ typedefs ++ children all_kinds)
  else EmptyString.

(** An import: the prefix as a text block, and the revision date as one
    when it is not empty. *)
Definition import_text (level : nat) (imp_i : ly_import) : string :=
  indent level ++ "import " ++ dq ++ hdr_name (imp_module imp_i) ++ dq ++ " {" ++ nl ++
  text_block (S level) "prefix" (imp_prefix imp_i) ++
  (if first_char_set (imp_rev imp_i)
   then text_block (S level) "revision-date" (imp_rev imp_i)
   else EmptyString) ++
  indent level ++ "}" ++ nl.

(** The include with index [i]: on one line when it has no revision date;
    else a block with the revision date of the import with index [i]. *)
Definition include_text (level : nat) (imp : list ly_import) (i : nat)
  (inc_i : ly_include) : string :=
  if first_char_set (inc_rev inc_i) then
    indent level ++ "include " ++ dq ++ submodule_name (inc_submodule inc_i) ++ dq ++ " {" ++ nl ++
    match nth_error imp i with
    | Some imp_i => text_block (S level) "revision-date" (imp_rev imp_i)
    | None => EmptyString
    end ++
    indent level ++ "}" ++ nl
  else
    indent level ++ "include " ++ dq ++ submodule_name (inc_submodule inc_i) ++ dq ++ ";" ++ nl.

Fixpoint includes_text (level : nat) (imp : list ly_import) (i : nat)
  (inc : list ly_include) : string :=
  match inc with
  | [] => EmptyString
  | inc_i :: inc' =>
      include_text level imp i inc_i ++ includes_text level imp (S i) inc'
  end.

(** The yang-version line: none for the version 0, [1.0] for 1 and [1.1]
    for every other value. *)
Definition version_text (level : nat) (version : Z) : string :=
  if version =? 0 then EmptyString
  else statement_line level "yang-version" (if version =? 1 then "1.0" else "1.1").

(** The text of a module, in the order of its parts. *)
Definition module_text {H : tree_h} (module : pointer ly_module) : string :=
  let m := target module in
  "module " ++ mod_name m ++ " {" ++ nl ++
  statement_line 1 "namespace" (ns m) ++
  statement_line 1 "prefix" (mod_prefix m) ++
  version_text 1 (version m) ++
  concat_all (map (import_text 1) (imp m)) ++
  includes_text 1 (imp m) O (inc m) ++
  opt_text 1 "organization" (org m) ++
  opt_text 1 "contact" (contact m) ++
  opt_text 1 "description" (mod_dsc m) ++
  opt_text 1 "reference" (mod_ref m) ++
  concat_all (map (revision_text 1) (mod_rev m)) ++
  concat_all (map (identity_text 1) (ident m)) ++
  concat_all (map (typedef_text 1 module) (mod_tpdf m)) ++
  concat_all (map (fun mnode => mnode_text 1 mnode all_kinds) (data m)) ++
  "}" ++ nl.

(** The text without the [n] characters that follow each of its line
    breaks ([skip] is the number of characters still to leave out). *)
Fixpoint unindent (n skip : nat) (s : string) : string :=
  match s with
  | EmptyString => EmptyString
  | String a s' =>
      match skip with
      | S skip' => unindent n skip' s'
      | O =>
          if Ascii.eqb a nl_char then String a (unindent n n s')
          else String a (unindent n O s')
      end
  end.

(** On a buffer a node is printed as its text: the property that the
    induction on the tree carries. *)
Definition printed_as_text {H : tree_h} (mnode : ly_mnode) : Prop :=
  forall (f : string) (level : nat) (mask : Z),
    yang_print_mnode f level mnode mask = f ++ mnode_text level mnode mask.

(** ** Relations between two streams

    The relation [R] at a child of a node, for two functions that print
    the child; on the results of the loop over the includes; and on the
    results of [yang_print_model]. *)

Definition sim_at {F G : Type} (R : F -> G -> Prop)
  (pf : F -> nat -> ly_mnode -> Z -> F) (pg : G -> nat -> ly_mnode -> Z -> G)
  (sub : ly_mnode) : Prop :=
  forall f g level mask, R f g -> R (pf f level sub mask) (pg g level sub mask).

Definition sim_option {F G : Type} (R : F -> G -> Prop) (o : option F)
  (o' : option G) : Prop :=
  match o, o' with
  | Some f, Some g => R f g
  | None, None => True
  | _, _ => False
  end.

Definition sim_result {F G : Type} (R : F -> G -> Prop)
  (r : option (F * Z)) (r' : option (G * Z)) : Prop :=
  match r, r' with
  | Some (f, status), Some (g, status') => R f g /\ status = status'
  | None, None => True
  | _, _ => False
  end.

(** ** Examples *)

(** Values of the constants for the examples: one bit for each kind of
    node and for each flag. *)
#[export] Instance libyang_tree_h : tree_h := {|
  LY_NODE_CONTAINER := 0x01;
  LY_NODE_CHOICE := 0x02;
  LY_NODE_LEAF := 0x04;
  LY_NODE_LEAFLIST := 0x08;
  LY_NODE_LIST := 0x10;
  LY_NODE_USES := 0x40;
  LY_NODE_GROUPING := 0x80;
  LY_NODE_CONFIG_W := 0x01;
  LY_NODE_CONFIG_R := 0x02;
  LY_NODE_CONFIG_MASK := 0x03;
  LY_NODE_STATUS_CURR := 0x04;
  LY_NODE_STATUS_DEPRC := 0x08;
  LY_NODE_STATUS_OBSLT := 0x10;
  LY_TYPE_ENUM := 6;
  LY_TYPE_IDENT := 7
|}.

Module Examples.

Definition m1_ptr : pointer ly_module_hdr :=
  Pointer 4096 {| hdr_name := "m1"; hdr_prefix := "m" |}.

Definition no_ident : ly_ident :=
  Ident EmptyString None None 0 m1_ptr None.

Definition builtin (n : string) (b : Z) : ly_type :=
  {| prefix := None; base := b;
     der := {| der_name := n; der_module := Pointer 0 {| hdr_name := EmptyString; hdr_prefix := EmptyString |} |};
     enums := []; info_ident_ref := no_ident |}.

Definition string_type := builtin "string" 10.

Definition node (n : string) (kind fl : Z) (p : option ly_mnode)
  (ch : list ly_mnode) : ly_mnode :=
  Mnode n None None fl kind m1_ptr p ch [] string_type [].

Definition c1_hdr := node "c1" LY_NODE_CONTAINER LY_NODE_CONFIG_W None [].
Definition l1 := node "l1" LY_NODE_LEAF 0 (Some c1_hdr) [].
Definition c1 := node "c1" LY_NODE_CONTAINER LY_NODE_CONFIG_W None [l1].

Definition m1 : pointer ly_module :=
  Pointer 4096
    {| mod_name := "m1"; ns := "urn:m1"; mod_prefix := "m"; version := 0;
       imp := []; inc := []; org := None; contact := None; mod_dsc := None;
       mod_ref := None; mod_rev := []; ident := []; mod_tpdf := [];
       data := [c1] |}.

(** A top-level node with the status bit for current and no config bit. *)
Definition unset_root := node "top" LY_NODE_CONTAINER LY_NODE_STATUS_CURR None [].

(** A read-only leaf in the writable container [c1]. *)
Definition read_only_child := node "state" LY_NODE_LEAF LY_NODE_CONFIG_R (Some c1_hdr) [].

(** The block of the specification's example for the description
    [line1\nline2] at level 2, as it is drawn there: after a margin, the
    label at 4 spaces and the two lines of the body at 8 spaces. *)
Definition spec_example_block (margin : nat) : string :=
  spaces margin ++ "    description" ++ nl ++
  spaces margin ++ "        " ++ dq ++ "line1" ++ nl ++
  spaces margin ++ "        line2" ++ dq ++ ";" ++ nl.

(** A type written with the prefix of the module it is printed in, and a
    type without prefix whose typedef belongs to another module. *)
Definition m2_ptr : pointer ly_module_hdr :=
  Pointer 8192 {| hdr_name := "m2"; hdr_prefix := "other" |}.

Definition own_prefixed : ly_type :=
  {| prefix := Some "m"; base := 0;
     der := {| der_name := "percent"; der_module := m1_ptr |};
     enums := []; info_ident_ref := no_ident |}.

Definition foreign_bare : ly_type :=
  {| prefix := None; base := 0;
     der := {| der_name := "percent"; der_module := m2_ptr |};
     enums := []; info_ident_ref := no_ident |}.

(** A list with the keys [k2], [k1], [k3], in this order. *)
Definition keyed_list : ly_mnode :=
  Mnode "servers" None None 0 LY_NODE_LIST m1_ptr None [] [] string_type
    [node "k2" LY_NODE_LEAF 0 None []; node "k1" LY_NODE_LEAF 0 None [];
     node "k3" LY_NODE_LEAF 0 None []].

(** A choice with a grouping and a leaf as children. *)
Definition choice_hdr := node "transport" LY_NODE_CHOICE 0 None [].

Definition mixed_choice : ly_mnode :=
  node "transport" LY_NODE_CHOICE 0 None
    [node "g" LY_NODE_GROUPING 0 (Some choice_hdr) [];
     node "tcp" LY_NODE_LEAF 0 (Some choice_hdr) []].

(** The module [m1] with other imports, includes and revisions. *)
Definition m1_with (imports : list ly_import) (includes : list ly_include)
  (revisions : list ly_revision) : pointer ly_module :=
  Pointer 4096
    {| mod_name := "m1"; ns := "urn:m1"; mod_prefix := "m"; version := 0;
       imp := imports; inc := includes; org := None; contact := None;
       mod_dsc := None; mod_ref := None; mod_rev := revisions; ident := [];
       mod_tpdf := []; data := [] |}.

(** An import and an include with different revision dates. *)
Definition import_2014 : ly_import :=
  {| imp_module := {| hdr_name := "types"; hdr_prefix := "t" |};
     imp_prefix := "t"; imp_rev := "2014-01-01" |}.

Definition include_2015 : ly_include :=
  {| inc_submodule := {| submodule_name := "m1-sub" |};
     inc_rev := "2015-06-15" |}.

(** A revision with neither description nor reference. *)
Definition plain_revision : ly_revision :=
  {| date := "2015-06-15"; rev_dsc := None; rev_ref := None |}.

(** A stream whose first write call fails and whose later ones succeed. *)
Definition first_write_fails : flaky :=
  Flaky EmptyString O (fun n => (n =? 0)%nat) false.

(** An enumeration with two entries, an identity reference to an identity
    of the module [m2], and a text with a double quote and a backslash. *)
Definition enum_type : ly_type :=
  {| prefix := None; base := LY_TYPE_ENUM;
     der := {| der_name := "enumeration"; der_module := m1_ptr |};
     enums :=
       [ {| enum_name := "up"; enum_dsc := None; enum_ref := None;
            enum_flags := 0; value := 1 |};
         {| enum_name := "down"; enum_dsc := None; enum_ref := None;
            enum_flags := LY_NODE_STATUS_DEPRC; value := -1 |} ];
     info_ident_ref := no_ident |}.

Definition foreign_ident : ly_ident :=
  Ident "ethernet" None None 0 m2_ptr None.

Definition identref_type : ly_type :=
  {| prefix := None; base := LY_TYPE_IDENT;
     der := {| der_name := "identityref"; der_module := m1_ptr |};
     enums := []; info_ident_ref := foreign_ident |}.

Definition quoted_text : string :=
  "say " ++ dq ++ "hi" ++ dq ++ " \\ bye".

(** A node of a kind that yang.c does not name. *)
Definition anyxml_node := node "any" 0x20 0 None [].

(** A module whose include has a revision date and no import. *)
Definition m1_overrun := m1_with [] [include_2015] [].

End Examples.
Import Examples.

(** ** Facts about texts *)

Lemma append_nil_r (s : string) : s ++ EmptyString = s.
Proof. induction s as [|a s IH]; simpl; [reflexivity | now rewrite IH]. Qed.

Lemma append_assoc (s t u : string) : (s ++ t) ++ u = s ++ (t ++ u).
Proof. induction s as [|a s IH]; simpl; [reflexivity | now rewrite IH]. Qed.

(** ** Unfolding lemmas *)

Lemma yang_print_text_loop_eq {FILE : Type} {stream : Stream FILE}
  (f : FILE) (level : nat) (t : string) :
  yang_print_text_loop f level t =
  match strchr t nl_char with
  | Some s =>
      yang_print_text_loop
        (discard (fprintf (discard (fwrite f (take (s + 1) t))) (indent level)))
        level (advance (s + 1) t)
  | None => (f, t)
  end.
Proof.
  funelim (yang_print_text_loop f level t).
  - rewrite Hs. reflexivity.
  - rewrite e. reflexivity.
Qed.

Lemma yang_print_mnode_eq {H : tree_h} {FILE : Type} {stream : Stream FILE}
  (f : FILE) (level : nat) (mnode : ly_mnode) (mask : Z) :
  yang_print_mnode f level mnode mask =
  let selector := Z.land (nodetype mnode) mask in
  if selector =? LY_NODE_CONTAINER then yang_print_container f level mnode
  else if selector =? LY_NODE_CHOICE then yang_print_choice f level mnode
  else if selector =? LY_NODE_LEAF then yang_print_leaf f level mnode
  else if selector =? LY_NODE_LEAFLIST then yang_print_leaflist f level mnode
  else if selector =? LY_NODE_LIST then yang_print_list f level mnode
  else if selector =? LY_NODE_USES then yang_print_uses f level mnode
  else if selector =? LY_NODE_GROUPING then yang_print_grouping f level mnode
  else f.
Proof. destruct mnode; reflexivity. Qed.

(** Induction on a node with the hypothesis for its children. *)
Fixpoint ly_mnode_child_ind (P : ly_mnode -> Prop)
  (step : forall mnode, Forall P (child mnode) -> P mnode)
  (mnode : ly_mnode) {struct mnode} : P mnode :=
  step mnode
    ((fix children (l : list ly_mnode) : Forall P l :=
        match l with
        | [] => Forall_nil P
        | sub :: l' =>
            Forall_cons sub (ly_mnode_child_ind P step sub) (children l')
        end) (child mnode)).

(** ** Loops that keep a relation between two states *)

Section Loops.

Context {A S T : Type} (Q : S -> T -> Prop).

Lemma fold_left_rel (p : S -> A -> S) (q : T -> A -> T) (l : list A) :
  Forall (fun x => forall s t, Q s t -> Q (p s x) (q t x)) l ->
  forall s t, Q s t -> Q (fold_left p l s) (fold_left q l t).
Proof.
  induction 1 as [|x l Hx _ IH]; simpl; intros s t Hst; auto.
Qed.

Lemma for_each_i_rel (p : S -> nat -> A -> S) (q : T -> nat -> A -> T) :
  (forall i x s t, Q s t -> Q (p s i x) (q t i x)) ->
  forall l i s t, Q s t -> Q (for_each_i p i l s) (for_each_i q i l t).
Proof.
  intros Hpq l; induction l as [|x l IH]; simpl; intros i s t Hst; auto.
Qed.

End Loops.

(** ** The printer on two streams

    The printer never looks at the stream: it performs the same write
    calls, with the same text, whatever the stream answers.  So a relation
    between two streams that every write keeps is kept by every printing
    function. *)

Create HintDb sim.

Section Simulation.

Context {H : tree_h} {F G : Type} {SF : Stream F} {SG : Stream G}.
Variable R : F -> G -> Prop.
Hypothesis R_write :
  forall f g s, R f g -> R (fst (write f s)) (fst (write g s)).

Lemma sim_fprintf f g s :
  R f g -> R (discard (fprintf f s)) (discard (fprintf g s)).
Proof. apply R_write. Qed.

Lemma sim_fwrite f g s :
  R f g -> R (discard (fwrite f s)) (discard (fwrite g s)).
Proof. apply R_write. Qed.

Lemma sim_text_loop level t :
  forall f g, R f g ->
  R (fst (yang_print_text_loop f level t)) (fst (yang_print_text_loop g level t))
  /\ snd (yang_print_text_loop f level t) = snd (yang_print_text_loop g level t).
Proof.
  induction t as [t IH] using (induction_ltof1 _ String.length).
  intros f g Hfg.
  rewrite (yang_print_text_loop_eq f), (yang_print_text_loop_eq g).
  destruct (strchr t nl_char) as [s|] eqn:Hs.
  - apply IH.
    + unfold ltof. rewrite advance_length. apply strchr_lt in Hs. lia.
    + now apply sim_fprintf, sim_fwrite.
  - simpl. auto.
Qed.

Lemma sim_text f g level name text :
  R f g -> R (yang_print_text f level name text) (yang_print_text g level name text).
Proof.
  intros Hfg. unfold yang_print_text.
  destruct (sim_text_loop (S level) text
              (discard (fprintf (discard (fprintf f (indent level ++ name ++ nl)))
                          (indent (S level) ++ dq)))
              (discard (fprintf (discard (fprintf g (indent level ++ name ++ nl)))
                          (indent (S level) ++ dq)))) as [Hl Ht].
  { now do 2 apply sim_fprintf. }
  destruct (yang_print_text_loop (discard (fprintf (discard (fprintf f _)) _)) _ _)
    as [f' t'].
  destruct (yang_print_text_loop (discard (fprintf (discard (fprintf g _)) _)) _ _)
    as [g' t''].
  simpl in Hl, Ht. subst t''. now apply sim_fprintf.
Qed.

Hint Resolve sim_fprintf sim_fwrite sim_text : sim.

Ltac sim_cases :=
  repeat match goal with
         | |- context [if ?b then _ else _] => destruct b
         | |- context [match ?o with Some _ => _ | None => _ end] => destruct o
         end.

Lemma sim_common {A : Type} `{Common A} f g level (mnode : A) :
  R f g ->
  R (yang_print_mnode_common f level mnode) (yang_print_mnode_common g level mnode).
Proof.
  intros Hfg. unfold yang_print_mnode_common. sim_cases; auto 10 with sim.
Qed.

Hint Resolve sim_common : sim.

Lemma sim_common2 f g level mnode :
  R f g ->
  R (yang_print_mnode_common2 f level mnode) (yang_print_mnode_common2 g level mnode).
Proof.
  intros Hfg. unfold yang_print_mnode_common2.
  apply sim_common. sim_cases; auto with sim.
Qed.

Lemma sim_type {M : Type} f g level (module : pointer M) type :
  R f g ->
  R (yang_print_type f level module type) (yang_print_type g level module type).
Proof.
  intros Hfg. unfold yang_print_type.
  apply sim_fprintf.
  assert (R (match prefix type with
             | Some p => discard (fprintf f (indent level ++ "type " ++ p ++ ":" ++ der_name (der type) ++ " {" ++ nl))
             | None => discard (fprintf f (indent level ++ "type " ++ der_name (der type) ++ " {" ++ nl))
             end)
            (match prefix type with
             | Some p => discard (fprintf g (indent level ++ "type " ++ p ++ ":" ++ der_name (der type) ++ " {" ++ nl))
             | None => discard (fprintf g (indent level ++ "type " ++ der_name (der type) ++ " {" ++ nl))
             end)) as Hhead
    by (destruct (prefix type); auto with sim).
  destruct (base type =? LY_TYPE_ENUM).
  - apply fold_left_rel; [|exact Hhead].
    apply Forall_forall. intros e _ s t Hst. auto 10 with sim.
  - destruct (base type =? LY_TYPE_IDENT); [|exact Hhead].
    destruct (ptr_eqb module _); auto with sim.
Qed.

Hint Resolve sim_common2 sim_type : sim.

Lemma sim_typedef {M : Type} f g level (module : pointer M) tpdf :
  R f g ->
  R (yang_print_typedef f level module tpdf) (yang_print_typedef g level module tpdf).
Proof. intros Hfg. unfold yang_print_typedef. auto 10 with sim. Qed.

Lemma sim_identity f g level ident :
  R f g ->
  R (yang_print_identity f level ident) (yang_print_identity g level ident).
Proof.
  intros Hfg. unfold yang_print_identity.
  apply sim_fprintf. sim_cases; auto 10 with sim.
Qed.

Hint Resolve sim_typedef sim_identity : sim.

Lemma sim_typedefs {M : Type} f g level (module : pointer M) l :
  R f g ->
  R (fold_left (fun f t => yang_print_typedef f level module t) l f)
    (fold_left (fun f t => yang_print_typedef f level module t) l g).
Proof.
  apply fold_left_rel. apply Forall_forall. intros t _ s u Hsu. auto with sim.
Qed.

Hint Resolve sim_typedefs : sim.

Lemma sim_leaf f g level mnode :
  R f g -> R (yang_print_leaf f level mnode) (yang_print_leaf g level mnode).
Proof. intros Hfg. unfold yang_print_leaf. auto 10 with sim. Qed.

Lemma sim_leaflist f g level mnode :
  R f g -> R (yang_print_leaflist f level mnode) (yang_print_leaflist g level mnode).
Proof. intros Hfg. unfold yang_print_leaflist. auto 10 with sim. Qed.

Lemma sim_uses f g level mnode :
  R f g -> R (yang_print_uses f level mnode) (yang_print_uses g level mnode).
Proof. intros Hfg. unfold yang_print_uses. auto 10 with sim. Qed.

(** The printers of the nodes with children, given the property for the
    children. *)
Section Children.

Variable pf : F -> nat -> ly_mnode -> Z -> F.
Variable pg : G -> nat -> ly_mnode -> Z -> G.

Lemma sim_children l level mask f g :
  Forall (sim_at R pf pg) l -> R f g ->
  R (fold_left (fun f sub => pf f level sub mask) l f)
    (fold_left (fun f sub => pg f level sub mask) l g).
Proof.
  intros Hl. apply fold_left_rel.
  apply Forall_impl with (2 := Hl). intros sub Hsub s t Hst. now apply Hsub.
Qed.

Lemma sim_container_ f g level mnode :
  Forall (sim_at R pf pg) (child mnode) -> R f g ->
  R (yang_print_container_ pf f level mnode) (yang_print_container_ pg g level mnode).
Proof.
  intros Hc Hfg. unfold yang_print_container_.
  apply sim_fprintf, sim_children; auto 10 with sim.
Qed.

Lemma sim_choice_ f g level mnode :
  Forall (sim_at R pf pg) (child mnode) -> R f g ->
  R (yang_print_choice_ pf f level mnode) (yang_print_choice_ pg g level mnode).
Proof.
  intros Hc Hfg. unfold yang_print_choice_.
  apply sim_fprintf, sim_children; auto 10 with sim.
Qed.

Lemma sim_list_ f g level mnode :
  Forall (sim_at R pf pg) (child mnode) -> R f g ->
  R (yang_print_list_ pf f level mnode) (yang_print_list_ pg g level mnode).
Proof.
  intros Hc Hfg. unfold yang_print_list_.
  apply sim_fprintf, sim_children; auto.
  apply sim_typedefs.
  destruct (negb _); [|auto with sim].
  apply sim_fprintf, for_each_i_rel; auto 10 with sim.
Qed.

Lemma sim_grouping_ f g level mnode :
  Forall (sim_at R pf pg) (child mnode) -> R f g ->
  R (yang_print_grouping_ pf f level mnode) (yang_print_grouping_ pg g level mnode).
Proof.
  intros Hc Hfg. unfold yang_print_grouping_.
  apply sim_fprintf, sim_children; auto 10 with sim.
Qed.

End Children.

Lemma sim_mnode mnode :
  forall f g level mask, R f g ->
  R (yang_print_mnode f level mnode mask) (yang_print_mnode g level mnode mask).
Proof.
  induction mnode as [mnode IH] using ly_mnode_child_ind.
  intros f g level mask Hfg.
  rewrite !yang_print_mnode_eq. cbv zeta.
  unfold yang_print_container, yang_print_choice, yang_print_list,
    yang_print_grouping.
  repeat match goal with
         | |- context [if ?b then _ else _] => destruct b
         end;
    auto using sim_container_, sim_choice_, sim_list_, sim_grouping_,
      sim_leaf, sim_leaflist, sim_uses.
Qed.

Lemma sim_import level f g i :
  R f g -> R (yang_print_model_import level f i) (yang_print_model_import level g i).
Proof.
  intros Hfg. unfold yang_print_model_import.
  apply sim_fprintf. sim_cases; auto 10 with sim.
Qed.

Lemma sim_include level imp o o' i inc_i :
  sim_option R o o' ->
  sim_option R (yang_print_model_include level imp o i inc_i)
    (yang_print_model_include level imp o' i inc_i).
Proof.
  unfold yang_print_model_include.
  destruct o as [f|], o' as [g|]; simpl; try tauto.
  intros Hfg. destruct (first_char_set _); [|simpl; auto with sim].
  destruct (nth_error imp i); simpl; auto 10 with sim.
Qed.

Lemma sim_revision level f g r :
  R f g ->
  R (yang_print_model_revision level f r) (yang_print_model_revision level g r).
Proof.
  intros Hfg. unfold yang_print_model_revision.
  destruct (_ || _); [|auto with sim].
  apply sim_fprintf. sim_cases; auto 10 with sim.
Qed.

Theorem sim_model f g module :
  R f g -> sim_result R (yang_print_model f module) (yang_print_model g module).
Proof.
  intros Hfg. unfold yang_print_model.
  set (f1 := fold_left (yang_print_model_import 1) _ _).
  set (g1 := fold_left (yang_print_model_import 1) _ _).
  assert (Hinc : sim_option R
            (for_each_i (yang_print_model_include 1 (imp (target module))) O
               (inc (target module)) (Some f1))
            (for_each_i (yang_print_model_include 1 (imp (target module))) O
               (inc (target module)) (Some g1))).
  { apply for_each_i_rel.
    - intros i x s t. apply sim_include.
    - simpl. subst f1 g1. apply fold_left_rel.
      + apply Forall_forall. intros i _ s t. apply sim_import.
      + destruct (negb _); auto 10 with sim. }
  destruct (for_each_i _ _ _ (Some f1)) as [f2|],
           (for_each_i _ _ _ (Some g1)) as [g2|]; simpl in Hinc; try tauto.
  simpl. split; [|reflexivity].
  apply sim_fprintf.
  apply fold_left_rel.
  { apply Forall_forall. intros sub _ s t. apply sim_mnode. }
  apply sim_typedefs.
  apply fold_left_rel.
  { apply Forall_forall. intros i _ s t. apply sim_identity. }
  apply fold_left_rel.
  { apply Forall_forall. intros r _ s t. apply sim_revision. }
  sim_cases; auto 10 with sim.
Qed.

End Simulation.

Section Buffer.

Context {H : tree_h}.

Lemma buffer_fprintf (f s : string) : discard (fprintf f s) = f ++ s.
Proof. reflexivity. Qed.

Lemma buffer_fwrite (f s : string) : discard (fwrite f s) = f ++ s.
Proof. reflexivity. Qed.

Lemma after_write (p f g s : string) :
  after p f g -> after p (fst (write f s)) (fst (write g s)).
Proof.
  unfold after. intros ->. simpl. now rewrite append_assoc.
Qed.

Lemma reindent_no_newline (pad t : string) :
  strchr t nl_char = None -> reindent pad t = t.
Proof.
  induction t as [|a t IH]; simpl; [reflexivity|].
  destruct (Ascii.eqb a nl_char); [discriminate|].
  destruct (strchr t nl_char); [discriminate|].
  intros _. now rewrite IH.
Qed.

Lemma reindent_first_newline (pad t : string) (s : nat) :
  strchr t nl_char = Some s ->
  reindent pad t = take (s + 1) t ++ pad ++ reindent pad (advance (s + 1) t).
Proof.
  revert s; induction t as [|a t IH]; simpl; intros s; [discriminate|].
  destruct (Ascii.eqb a nl_char).
  - intros [= <-]. reflexivity.
  - destruct (strchr t nl_char) as [n|]; [|discriminate].
    intros [= <-]. simpl. now rewrite (IH n eq_refl).
Qed.

Lemma buffer_text_loop (level : nat) (t : string) :
  forall f : string,
  fst (yang_print_text_loop f level t) ++ snd (yang_print_text_loop f level t)
  = f ++ reindent (indent level) t.
Proof.
  induction t as [t IH] using (induction_ltof1 _ String.length).
  intros f. rewrite yang_print_text_loop_eq.
  destruct (strchr t nl_char) as [s|] eqn:Hs.
  - rewrite IH.
    + rewrite buffer_fwrite, buffer_fprintf, (reindent_first_newline _ _ _ Hs).
      now rewrite !append_assoc.
    + unfold ltof. rewrite advance_length. apply strchr_lt in Hs. lia.
  - simpl. now rewrite reindent_no_newline.
Qed.

Lemma buffer_text (f : string) (level : nat) (label text : string) :
  yang_print_text f level label text = f ++ text_block level label text.
Proof.
  unfold yang_print_text, text_block.
  rewrite !buffer_fprintf.
  pose proof (buffer_text_loop (S level) text
                ((f ++ indent level ++ label ++ nl) ++ indent (S level) ++ dq))
    as Hloop.
  destruct (yang_print_text_loop _ _ _) as [f' t']. cbn [fst snd] in Hloop.
  rewrite buffer_fprintf, <- append_assoc, Hloop.
  now rewrite !append_assoc.
Qed.

Lemma buffer_opt_text (f : string) (level : nat) (label : string)
  (text : option string) :
  match text with
  | Some t => yang_print_text f level label t
  | None => f
  end = f ++ opt_text level label text.
Proof.
  destruct text; simpl; [apply buffer_text | now rewrite append_nil_r].
Qed.

Lemma buffer_common {A : Type} `{Common A} (f : string) (level : nat)
  (mnode : A) :
  yang_print_mnode_common f level mnode = f ++ common_text level mnode.
Proof.
  unfold yang_print_mnode_common, common_text.
  rewrite !buffer_opt_text, !append_assoc.
  rewrite <- (append_assoc f (status_line _ _)). f_equal.
  unfold status_line, status_keyword, statement_line.
  rewrite !buffer_fprintf.
  destruct (bit_set _ LY_NODE_STATUS_CURR); [reflexivity|].
  destruct (bit_set _ LY_NODE_STATUS_DEPRC); [reflexivity|].
  destruct (bit_set _ LY_NODE_STATUS_OBSLT); [reflexivity|].
  now rewrite append_nil_r.
Qed.

Lemma buffer_fold_left {A : Type} (print : string -> A -> string)
  (text : A -> string) (l : list A) :
  (forall f x, print f x = f ++ text x) ->
  forall f, fold_left print l f = f ++ concat_all (map text l).
Proof.
  intros Hp. induction l as [|x l IH]; simpl; intros f.
  - now rewrite append_nil_r.
  - now rewrite IH, Hp, append_assoc.
Qed.

Lemma buffer_enum (f : string) (level : nat) (e : ly_type_enum) :
  discard (fprintf
    (discard (fprintf
       (yang_print_mnode_common
          (discard (fprintf f (indent level ++ "enum " ++ name e ++ " {" ++ nl)))
          (S level) e)
       (indent (S level) ++ "value " ++ string_of_Z (value e) ++ ";" ++ nl)))
    (indent (Nat.pred (S level)) ++ "}" ++ nl))
  = f ++ enum_text level e.
Proof.
  rewrite !buffer_fprintf, buffer_common. unfold enum_text.
  cbn [Nat.pred]. now rewrite !append_assoc.
Qed.

Lemma buffer_type {M : Type} (f : string) (level : nat) (module : pointer M)
  (type : ly_type) :
  yang_print_type f level module type =
  f ++ indent level ++ "type " ++ type_name type ++ " {" ++ nl ++
  type_body (S level) module type ++ indent level ++ "}" ++ nl.
Proof.
  unfold yang_print_type, type_body, type_name. cbn [Nat.pred].
  assert (match prefix type with
          | Some p => discard (fprintf f (indent level ++ "type " ++ p ++ ":" ++ der_name (der type) ++ " {" ++ nl))
          | None => discard (fprintf f (indent level ++ "type " ++ der_name (der type) ++ " {" ++ nl))
          end
          = f ++ indent level ++ "type " ++
            match prefix type with
            | Some p => p ++ ":" ++ der_name (der type)
            | None => der_name (der type)
            end ++ " {" ++ nl) as ->.
  { destruct (prefix type); rewrite buffer_fprintf;
      now rewrite ?append_assoc. }
  destruct (base type =? LY_TYPE_ENUM).
  - rewrite (buffer_fold_left _ (enum_text (S level))).
    + rewrite buffer_fprintf. now rewrite !append_assoc.
    + intros g e. apply buffer_enum.
  - destruct (base type =? LY_TYPE_IDENT).
    + destruct (ptr_eqb _ _); rewrite !buffer_fprintf;
        now rewrite !append_assoc.
    + rewrite buffer_fprintf. now rewrite !append_assoc.
Qed.

Lemma from_empty (print : string -> string) :
  (forall p f, print (p ++ f) = p ++ print f) ->
  forall f, print f = f ++ written print.
Proof.
  intros Hp f. unfold written. now rewrite <- Hp, append_nil_r.
Qed.

Lemma buffer_common2 (f : string) (level : nat) (mnode : ly_mnode) :
  yang_print_mnode_common2 f level mnode =
  f ++ written (fun f => yang_print_mnode_common2 f level mnode).
Proof.
  apply (from_empty (fun f => yang_print_mnode_common2 f level mnode)).
  intros p g.
  exact (sim_common2 (after p) (after_write p) g (p ++ g) level mnode eq_refl).
Qed.

Lemma buffer_typedefs {M : Type} (f : string) (level : nat)
  (module : pointer M) (l : list ly_tpdf) :
  fold_left (fun f t => yang_print_typedef f level module t) l f =
  f ++ written (fold_left (fun f t => yang_print_typedef f level module t) l).
Proof.
  apply (from_empty (fold_left (fun f t => yang_print_typedef f level module t) l)).
  intros p g.
  exact (sim_typedefs (after p) (after_write p) g (p ++ g) level module l eq_refl).
Qed.

Lemma buffer_children (f : string) (level : nat) (mask : Z)
  (l : list ly_mnode) :
  fold_left (fun f sub => yang_print_mnode f level sub mask) l f =
  f ++ written (fold_left (fun f sub => yang_print_mnode f level sub mask) l).
Proof.
  apply (from_empty (fold_left (fun f sub => yang_print_mnode f level sub mask) l)).
  intros p g.
  apply (fold_left_rel (after p)); [|reflexivity].
  apply Forall_forall. intros sub _ s t Hst.
  now apply (sim_mnode (after p) (after_write p)).
Qed.

Lemma buffer_keys (keys_size : nat) (l : list ly_mnode) :
  forall (i : nat) (f : string),
  (i + List.length l = keys_size)%nat ->
  for_each_i
    (fun f i key =>
       discard (fprintf f (name key ++
         (if (i + 1 <? keys_size)%nat then " " else EmptyString))))
    i l f
  = f ++ String.concat " " (map name l).
Proof.
  induction l as [|key l IH]; intros i f Hi.
  - simpl. now rewrite append_nil_r.
  - cbn [for_each_i]. rewrite (IH (S i)) by (simpl in Hi; lia).
    rewrite buffer_fprintf. destruct l as [|key' l].
    + simpl in Hi. replace (i + 1 <? keys_size)%nat with false
        by (symmetry; apply Nat.ltb_ge; lia).
      cbn [map String.concat]. now rewrite !append_nil_r.
    + simpl in Hi. replace (i + 1 <? keys_size)%nat with true
        by (symmetry; apply Nat.ltb_lt; lia).
      cbn [map String.concat]. now rewrite !append_assoc.
Qed.

Lemma buffer_key_part (g : string) (level : nat) (l : list ly_mnode) :
  (if negb (List.length l =? 0)%nat then
     discard (fprintf
       (for_each_i
          (fun f i key =>
             discard (fprintf f (name key ++
               (if (i + 1 <? List.length l)%nat then " " else EmptyString))))
          O l (discard (fprintf g (indent level ++ "key " ++ dq))))
       (dq ++ ";" ++ nl))
   else g)
  = g ++ key_line level (map name l).
Proof.
  destruct l as [|key l'] eqn:Hl.
  - simpl. now rewrite append_nil_r.
  - rewrite <- Hl. replace (negb (List.length l =? 0)%nat) with true
      by (subst l; reflexivity).
    rewrite buffer_fprintf, buffer_keys by reflexivity.
    rewrite buffer_fprintf. subst l. unfold key_line. cbn [map].
    now rewrite !append_assoc.
Qed.

Lemma buffer_list (f : string) (level : nat) (mnode : ly_mnode) :
  yang_print_list f level mnode =
  f ++ indent level ++ "list " ++ name mnode ++ " {" ++ nl ++
  written (fun f => yang_print_mnode_common2 f (S level) mnode) ++
  key_line (S level) (map name (keys mnode)) ++
  written (fold_left
             (fun f t => yang_print_typedef f (S level) (module mnode) t)
             (tpdf mnode)) ++
  written (fold_left
             (fun f sub =>
                yang_print_mnode f (S level) sub
                  (Z.lor (Z.lor (Z.lor (Z.lor (Z.lor (Z.lor
                     LY_NODE_CHOICE LY_NODE_CONTAINER) LY_NODE_LEAF)
                     LY_NODE_LEAFLIST) LY_NODE_LIST) LY_NODE_USES)
                     LY_NODE_GROUPING))
             (child mnode)) ++
  indent level ++ "}" ++ nl.
Proof.
  unfold yang_print_list, yang_print_list_. cbn [Nat.pred].
  rewrite buffer_fprintf, buffer_children, buffer_typedefs.
  rewrite buffer_key_part, buffer_common2, buffer_fprintf.
  now rewrite !append_assoc.
Qed.

End Buffer.


(** ** Properties of the printed text *)

(** C7 (as amended).  The text printer writes the label on a line of its
    own at the current indentation, then the body one level deeper: a
    double quote, the text with the deeper indentation put after each of
    its line breaks, a double quote, a semicolon and an empty line.  For
    the description [line1\nline2] at level 2 the label stands at 4 spaces
    and each of the two lines of the body at 6 spaces. *)
Theorem yang_print_text_layout :
  (forall (f : string) (level : nat) (label text : string),
     yang_print_text f level label text =
     f ++ indent level ++ label ++ nl ++
     indent (S level) ++ dq ++ reindent (indent (S level)) text ++ dq ++ ";" ++ nl ++ nl)
  /\ yang_print_text EmptyString 2 "description" ("line1" ++ nl ++ "line2") =
     "    description" ++ nl ++
     "      " ++ dq ++ "line1" ++ nl ++
     "      line2" ++ dq ++ ";" ++ nl ++ nl.
Proof.
  split.
  - intros. apply buffer_text.
  - rewrite buffer_text. reflexivity.
Qed.

(** C7, the claim as stated fails: the block that the specification draws
    has the body 4 columns to the right of the label, with or without the
    margin of the list item it stands in; the printer puts it 2 columns to
    the right, so that after the label line the two texts go apart at the
    seventh column. *)
Lemma yang_print_text_not_spec_example :
  yang_print_text EmptyString 2 "description" ("line1" ++ nl ++ "line2")
    <> spec_example_block 0
  /\ yang_print_text EmptyString 2 "description" ("line1" ++ nl ++ "line2")
    <> spec_example_block 2
  /\ String.prefix ("    description" ++ nl ++ "      " ++ dq)
       (yang_print_text EmptyString 2 "description" ("line1" ++ nl ++ "line2"))
     = true
  /\ String.prefix ("    description" ++ nl ++ "      " ++ dq)
       (spec_example_block 0)
     = false.
Proof.
  split; [apply String.eqb_neq; reflexivity|].
  split; [apply String.eqb_neq; reflexivity|].
  split; reflexivity.
Qed.

(** C9.  The common-metadata printer writes at most one status line: the
    one of the status keyword of the flags, where current goes before
    deprecated and deprecated before obsolete, and none when no status bit
    is set; the description and the reference follow. *)
Theorem yang_print_mnode_common_status {H : tree_h} {A : Type} `{Common A}
  (f : string) (level : nat) (mnode : A) :
  yang_print_mnode_common f level mnode =
  f ++
  match status_keyword (flags mnode) with
  | Some keyword => indent level ++ "status " ++ dq ++ keyword ++ dq ++ ";" ++ nl
  | None => EmptyString
  end ++
  opt_text level "description" (dsc mnode) ++
  opt_text level "reference" (ref mnode).
Proof.
  rewrite buffer_common. unfold common_text, status_line.
  destruct (status_keyword _); reflexivity.
Qed.

(** C10.  A node whose writable and read-only bits are both clear gets no
    config line, in a top-level node as anywhere else: the config-aware
    printer then writes what the common-metadata printer writes. *)
Theorem yang_print_mnode_common2_unset {H : tree_h} {FILE : Type}
  {stream : Stream FILE} (f : FILE) (level : nat) (mnode : ly_mnode) :
  Z.land (flags mnode) LY_NODE_CONFIG_W = 0 ->
  Z.land (flags mnode) LY_NODE_CONFIG_R = 0 ->
  yang_print_mnode_common2 f level mnode = yang_print_mnode_common f level mnode.
Proof.
  intros HW HR. unfold yang_print_mnode_common2, bit_set.
  rewrite HW, HR. simpl.
  now destruct (match parent mnode with Some _ => _ | None => _ end).
Qed.

Lemma yang_print_mnode_common2_unset_witness :
  parent unset_root = None
  /\ Z.land (flags unset_root) LY_NODE_CONFIG_W = 0
  /\ Z.land (flags unset_root) LY_NODE_CONFIG_R = 0
  /\ yang_print_mnode_common2 EmptyString 1 unset_root
     = yang_print_mnode_common EmptyString 1 unset_root.
Proof.
  do 3 (split; [reflexivity|]).
  apply (yang_print_mnode_common2_unset EmptyString 1 unset_root);
    reflexivity.
Defined.

(** C4 (as amended).  A node with a parent whose config bits equal its own
    gets no config line.  A top-level node, and a node whose config bits
    differ from those of its parent, gets the line [config "true";] when
    its writable bit is set, the line [config "false";] when its writable
    bit is clear and its read-only bit is set, and no config line when
    both bits are clear. *)
Theorem yang_print_mnode_common2_config {H : tree_h} {FILE : Type}
  {stream : Stream FILE} (f : FILE) (level : nat) (mnode : ly_mnode) :
  (forall p, parent mnode = Some p ->
     Z.land (flags p) LY_NODE_CONFIG_MASK = Z.land (flags mnode) LY_NODE_CONFIG_MASK ->
     yang_print_mnode_common2 f level mnode = yang_print_mnode_common f level mnode)
  /\ (parent mnode = None
      \/ (exists p, parent mnode = Some p /\
            Z.land (flags p) LY_NODE_CONFIG_MASK
            <> Z.land (flags mnode) LY_NODE_CONFIG_MASK) ->
      (Z.land (flags mnode) LY_NODE_CONFIG_W <> 0 ->
       yang_print_mnode_common2 f level mnode =
       yang_print_mnode_common
         (discard (fprintf f (indent level ++ "config " ++ dq ++ "true" ++ dq ++ ";" ++ nl)))
         level mnode)
      /\ (Z.land (flags mnode) LY_NODE_CONFIG_W = 0 ->
          Z.land (flags mnode) LY_NODE_CONFIG_R <> 0 ->
          yang_print_mnode_common2 f level mnode =
          yang_print_mnode_common
            (discard (fprintf f (indent level ++ "config " ++ dq ++ "false" ++ dq ++ ";" ++ nl)))
            level mnode)
      /\ (Z.land (flags mnode) LY_NODE_CONFIG_W = 0 ->
          Z.land (flags mnode) LY_NODE_CONFIG_R = 0 ->
          yang_print_mnode_common2 f level mnode =
          yang_print_mnode_common f level mnode)).
Proof.
  unfold yang_print_mnode_common2, bit_set. split.
  - intros p -> ->. now rewrite Z.eqb_refl.
  - intros Hp.
    assert (match parent mnode with
            | Some p =>
                negb (Z.land (flags p) LY_NODE_CONFIG_MASK
                      =? Z.land (flags mnode) LY_NODE_CONFIG_MASK)
            | None => true
            end = true) as ->.
    { destruct Hp as [-> | (p & -> & Hne)]; [reflexivity|].
      apply Z.eqb_neq in Hne. now rewrite Hne. }
    repeat split.
    + intros HW. apply Z.eqb_neq in HW. now rewrite HW.
    + intros HW HR. apply Z.eqb_neq in HR. now rewrite HW, HR.
    + intros HW HR. now rewrite HW, HR.
Qed.

Lemma yang_print_mnode_common2_config_witness :
  parent read_only_child = Some c1_hdr
  /\ Z.land (flags c1_hdr) LY_NODE_CONFIG_MASK
     <> Z.land (flags read_only_child) LY_NODE_CONFIG_MASK
  /\ Z.land (flags read_only_child) LY_NODE_CONFIG_W = 0
  /\ Z.land (flags read_only_child) LY_NODE_CONFIG_R <> 0
  /\ yang_print_mnode_common2 EmptyString 2 read_only_child
     = yang_print_mnode_common
         ("    config " ++ dq ++ "false" ++ dq ++ ";" ++ nl) 2 read_only_child.
Proof.
  split; [reflexivity|]. split; [discriminate|].
  split; [reflexivity|]. split; [discriminate|].
  destruct (yang_print_mnode_common2_config EmptyString 2 read_only_child)
    as [_ Hdiff].
  destruct Hdiff as (_ & Hfalse & _).
  { right. exists c1_hdr. split; [reflexivity | discriminate]. }
  apply Hfalse; [reflexivity | discriminate].
Defined.

(** C4, the claim as stated fails: the leaf [l1] has no config bit set and
    its parent [c1] is writable, so its config bits differ from those of
    its parent, and yet no config line is written for it. *)
Lemma yang_print_mnode_common2_differs_no_line :
  parent l1 = Some c1_hdr
  /\ Z.land (flags c1_hdr) LY_NODE_CONFIG_MASK
     <> Z.land (flags l1) LY_NODE_CONFIG_MASK
  /\ yang_print_mnode_common2 EmptyString 2 l1 = EmptyString.
Proof.
  split; [reflexivity|]. split; [discriminate | reflexivity].
Qed.

(** C3 (as amended).  The type printer writes the name of the type with
    the prefix and a colon before it exactly when the prefix of the type
    is set, whatever module its typedef belongs to and whatever module is
    printed; with no prefix it writes the bare name. *)
Theorem yang_print_type_name {H : tree_h} {M : Type} (f : string)
  (level : nat) (module : pointer M) (type : ly_type) :
  yang_print_type f level module type =
  f ++ indent level ++ "type " ++
  match prefix type with
  | Some p => p ++ ":" ++ der_name (der type)
  | None => der_name (der type)
  end ++ " {" ++ nl ++
  type_body (S level) module type ++ indent level ++ "}" ++ nl.
Proof. apply buffer_type. Qed.

(** C3, the claim as stated fails in both directions: a type of the
    printed module [m1] that is written with a prefix is printed with it,
    and a type of another module that has no prefix is printed bare. *)
Lemma yang_print_type_prefix_not_by_module :
  (ptr_eqb (der_module (der own_prefixed)) m1_ptr = true
   /\ yang_print_type EmptyString 1 m1_ptr own_prefixed
      = "  type m:percent {" ++ nl ++ "  }" ++ nl)
  /\ (ptr_eqb (der_module (der foreign_bare)) m1_ptr = false
      /\ yang_print_type EmptyString 1 m1_ptr foreign_bare
         = "  type percent {" ++ nl ++ "  }" ++ nl).
Proof. split; split; reflexivity. Qed.

(** C5.  The list printer writes, after the config-aware metadata and
    before the typedefs and the children, a key statement exactly when the
    list has keys: one line with the names of the keys in the order of the
    list, a space between two of them.  The keys [k2], [k1], [k3] give the
    line [key "k2 k1 k3";]. *)
Theorem yang_print_list_key :
  (forall (H : tree_h) (f : string) (level : nat) (mnode : ly_mnode),
     yang_print_list f level mnode =
     f ++ indent level ++ "list " ++ name mnode ++ " {" ++ nl ++
     written (fun f => yang_print_mnode_common2 f (S level) mnode) ++
     match map name (keys mnode) with
     | [] => EmptyString
     | names =>
         indent (S level) ++ "key " ++ dq ++ String.concat " " names ++ dq ++ ";" ++ nl
     end ++
     written (fold_left
                (fun f t => yang_print_typedef f (S level) (module mnode) t)
                (tpdf mnode)) ++
     written (fold_left
                (fun f sub =>
                   yang_print_mnode f (S level) sub
                     (Z.lor (Z.lor (Z.lor (Z.lor (Z.lor (Z.lor
                        LY_NODE_CHOICE LY_NODE_CONTAINER) LY_NODE_LEAF)
                        LY_NODE_LEAFLIST) LY_NODE_LIST) LY_NODE_USES)
                        LY_NODE_GROUPING))
                (child mnode)) ++
     indent level ++ "}" ++ nl)
  /\ yang_print_list EmptyString 0 keyed_list =
     "list servers {" ++ nl ++
     "  key " ++ dq ++ "k2 k1 k3" ++ dq ++ ";" ++ nl ++
     "}" ++ nl.
Proof.
  split.
  - intros. rewrite buffer_list. unfold key_line.
    destruct (map name (keys mnode)); reflexivity.
  - rewrite buffer_list. reflexivity.
Qed.

(** ** The dispatch on the kind of a node *)

Lemma fold_left_same {A St : Type} (p q : St -> A -> St) (good : A -> Prop)
  (l : list A) :
  (forall x, good x -> forall s, p s x = q s x) ->
  Forall good l ->
  forall s, fold_left p l s = fold_left q l s.
Proof.
  intros Hpq Hl. induction Hl as [|x l Hx _ IH]; simpl; intros s;
    [reflexivity|].
  now rewrite (Hpq x Hx), IH.
Qed.

Lemma fold_left_skip {A St : Type} (p : St -> A -> St) (keep : A -> bool)
  (l : list A) :
  (forall s x, keep x = false -> p s x = s) ->
  forall s, fold_left p (filter keep l) s = fold_left p l s.
Proof.
  intros Hskip. induction l as [|x l IH]; simpl; intros s; [reflexivity|].
  destruct (keep x) eqn:Hx; simpl; [apply IH|].
  now rewrite Hskip.
Qed.

Lemma disjoint_neq (a b : Z) :
  a <> 0 -> Z.land a b = 0 -> (a =? b) = false.
Proof.
  intros Ha Hab. apply Z.eqb_neq. intros <-.
  now rewrite Z.land_diag in Hab.
Qed.

Lemma zero_neq (a : Z) : a <> 0 -> (0 =? a) = false.
Proof. intros Ha. apply Z.eqb_neq. congruence. Qed.

(** What [node_types_are_flags] says, one fact per hypothesis, each pair
    in both orders. *)
Ltac flag_facts Hf :=
  unfold node_types_are_flags in Hf; cbn [disjoint_flags forallb] in Hf;
  repeat rewrite ?andb_true_iff, ?negb_true_iff, ?Z.eqb_eq, ?Z.eqb_neq in Hf;
  decompose [and] Hf; clear Hf;
  repeat match goal with
         | Hab : Z.land ?a ?b = 0 |- _ =>
             lazymatch goal with
             | _ : Z.land b a = 0 |- _ => fail
             | _ => assert (Z.land b a = 0) by (rewrite Z.land_comm; exact Hab)
             end
         end.

(** The selector [nodetype & mask] of a node whose kind is known, and the
    case of the [switch] it selects. *)
Ltac select_case Hkind :=
  rewrite yang_print_mnode_eq; cbv zeta; rewrite Hkind;
  rewrite !Z.land_lor_distr_r;
  repeat match goal with
         | Hab : Z.land _ _ = 0 |- _ => rewrite Hab
         end;
  rewrite ?Z.land_diag, ?Z.lor_0_l, ?Z.lor_0_r;
  repeat match goal with
         | |- context [?a =? ?b] =>
             first [ rewrite (Z.eqb_refl a)
                   | rewrite (disjoint_neq a b) by assumption
                   | rewrite (zero_neq b) by assumption ]
         end;
  reflexivity.

(** C6.  Inside a choice a child is printed exactly when it is a
    container, a leaf, a leaf-list or a list, by the printer of its kind;
    for a child that is a grouping (or a choice or a uses) the dispatcher
    writes nothing and leaves the stream as it is, so the choice is
    printed as if it had no grouping among its children.  The choice
    printer itself writes its opening line and its metadata, then each of
    its children in this way, in their order, and the closing brace. *)
Theorem yang_print_choice_children {H : tree_h} {FILE : Type}
  {stream : Stream FILE} :
  node_types_are_flags = true ->
  forall (f : FILE) (level : nat),
    (forall sub : ly_mnode,
       let mask :=
         Z.lor (Z.lor (Z.lor LY_NODE_CONTAINER LY_NODE_LEAF)
                  LY_NODE_LEAFLIST) LY_NODE_LIST in
       (nodetype sub = LY_NODE_CONTAINER ->
        yang_print_mnode f level sub mask = yang_print_container f level sub)
       /\ (nodetype sub = LY_NODE_LEAF ->
           yang_print_mnode f level sub mask = yang_print_leaf f level sub)
       /\ (nodetype sub = LY_NODE_LEAFLIST ->
           yang_print_mnode f level sub mask = yang_print_leaflist f level sub)
       /\ (nodetype sub = LY_NODE_LIST ->
           yang_print_mnode f level sub mask = yang_print_list f level sub)
       /\ (nodetype sub = LY_NODE_GROUPING \/ nodetype sub = LY_NODE_CHOICE
           \/ nodetype sub = LY_NODE_USES ->
           yang_print_mnode f level sub mask = f))
    /\ (forall mnode : ly_mnode,
          yang_print_choice f level mnode =
          yang_print_choice f level
            (with_child mnode
               (filter (fun sub => negb (nodetype sub =? LY_NODE_GROUPING))
                  (child mnode))))
    /\ (forall mnode : ly_mnode,
          Forall one_kind_for_choice (child mnode) ->
          yang_print_choice f level mnode =
          discard (fprintf
            (fold_left (print_in_choice (S level)) (child mnode)
               (yang_print_mnode_common2
                  (discard (fprintf f (indent level ++ "choice " ++ name mnode ++ " {" ++ nl)))
                  (S level) mnode))
            (indent level ++ "}" ++ nl))).
Proof.
  intros Hflags f level. flag_facts Hflags.
  assert (Hskip : forall (g : FILE) (lvl : nat) (sub : ly_mnode),
            nodetype sub = LY_NODE_GROUPING ->
            yang_print_mnode g lvl sub
              (Z.lor (Z.lor (Z.lor LY_NODE_CONTAINER LY_NODE_LEAF)
                        LY_NODE_LEAFLIST) LY_NODE_LIST) = g).
  { intros g lvl sub Hkind. select_case Hkind. }
  split; [|split].
  - intros sub mask. subst mask. repeat split.
    + intros Hkind. select_case Hkind.
    + intros Hkind. select_case Hkind.
    + intros Hkind. select_case Hkind.
    + intros Hkind. select_case Hkind.
    + intros [Hkind | [Hkind | Hkind]]; select_case Hkind.
  - intros mnode. unfold yang_print_choice, yang_print_choice_.
    change (child (with_child mnode ?l)) with l.
    change (name (with_child mnode ?l)) with (name mnode).
    change (yang_print_mnode_common2 ?g ?lvl (with_child mnode ?l))
      with (yang_print_mnode_common2 g lvl mnode).
    rewrite fold_left_skip; [reflexivity|].
    intros g sub Hsub. apply Hskip.
    apply negb_false_iff, Z.eqb_eq in Hsub. exact Hsub.
  - intros mnode Hkinds. unfold yang_print_choice, yang_print_choice_.
    cbn [Nat.pred]. do 2 f_equal.
    apply fold_left_same with (2 := Hkinds).
    intros sub [Hin | Hmask] g.
    + unfold print_in_choice.
      destruct Hin as [Hkind | [Hkind | [Hkind | [Hkind | []]]]];
        symmetry in Hkind; select_case Hkind.
    + assert (Hin : forall k,
                In k [LY_NODE_CONTAINER; LY_NODE_LEAF; LY_NODE_LEAFLIST;
                      LY_NODE_LIST] ->
                (nodetype sub =? k) = false).
      { intros k Hk. apply Z.eqb_neq. intros Heq.
        rewrite Heq in Hmask. unfold choice_kinds in Hmask.
        rewrite !Z.land_lor_distr_r in Hmask.
        destruct Hk as [<- | [<- | [<- | [<- | []]]]];
          repeat match goal with
                 | Hab : Z.land _ _ = 0 |- _ => rewrite Hab in Hmask
                 end;
          rewrite ?Z.land_diag, ?Z.lor_0_l, ?Z.lor_0_r in Hmask;
          contradiction. }
      unfold print_in_choice.
      rewrite !Hin by (simpl; tauto).
      rewrite yang_print_mnode_eq. cbv zeta.
      unfold choice_kinds in Hmask. rewrite Hmask.
      repeat match goal with
             | |- context [0 =? ?b] => rewrite (zero_neq b) by assumption
             end.
      reflexivity.
Qed.

Lemma yang_print_choice_children_witness :
  node_types_are_flags = true
  /\ Forall one_kind_for_choice (child mixed_choice)
  /\ yang_print_choice EmptyString 0 mixed_choice =
     "choice transport {" ++ nl ++
     "  leaf tcp {" ++ nl ++
     "    type string {" ++ nl ++
     "    }" ++ nl ++
     "  }" ++ nl ++
     "}" ++ nl.
Proof.
  assert (Hflags : node_types_are_flags = true) by reflexivity.
  assert (Hkinds : Forall one_kind_for_choice (child mixed_choice)).
  { cbv [mixed_choice node child].
    apply Forall_cons; [right; reflexivity|].
    apply Forall_cons; [left; simpl; tauto | apply Forall_nil]. }
  split; [exact Hflags|]. split; [exact Hkinds|].
  rewrite (proj2 (proj2 (yang_print_choice_children Hflags EmptyString 0))
             mixed_choice Hkinds).
  reflexivity.
Defined.

(** ** The module printer *)

Lemma includes_some {FILE : Type} {stream : Stream FILE} (level : nat)
  (imp : list ly_import) (inc : list ly_include) :
  forall (i : nat) (f : FILE),
  includes_in_range_from i inc (List.length imp) = true ->
  exists f',
    for_each_i (yang_print_model_include level imp) i inc (Some f) = Some f'.
Proof.
  induction inc as [|inc_i inc IH]; simpl; intros i f Hrange.
  - now exists f.
  - apply andb_prop in Hrange. destruct Hrange as [Hi Hrange].
    destruct (first_char_set (inc_rev inc_i)); simpl in Hi.
    + apply Nat.ltb_lt, nth_error_Some in Hi.
      destruct (nth_error imp i) as [imp_i|]; [|congruence].
      now apply IH.
    + now apply IH.
Qed.

Lemma yang_print_model_returns {H : tree_h} {FILE : Type}
  {stream : Stream FILE} (f : FILE) (module : pointer ly_module) :
  includes_in_range (target module) = true ->
  exists f', yang_print_model f module = Some (f', EXIT_SUCCESS).
Proof.
  intros Hrange. unfold yang_print_model.
  destruct (includes_some 1 (imp (target module)) (inc (target module)) O
              (fold_left (yang_print_model_import 1) (imp (target module))
                 (if negb (version (target module) =? 0)
                  then discard (fprintf
                         (discard (fprintf
                            (discard (fprintf
                               (discard (fprintf f ("module " ++ mod_name (target module) ++ " {" ++ nl)))
                               (indent 1 ++ "namespace " ++ dq ++ ns (target module) ++ dq ++ ";" ++ nl)))
                            (indent 1 ++ "prefix " ++ dq ++ mod_prefix (target module) ++ dq ++ ";" ++ nl)))
                         (indent 1 ++ "yang-version " ++ dq ++
                            (if version (target module) =? 1 then "1.0" else "1.1") ++ dq ++ ";" ++ nl))
                  else discard (fprintf
                         (discard (fprintf
                            (discard (fprintf f ("module " ++ mod_name (target module) ++ " {" ++ nl)))
                            (indent 1 ++ "namespace " ++ dq ++ ns (target module) ++ dq ++ ";" ++ nl)))
                         (indent 1 ++ "prefix " ++ dq ++ mod_prefix (target module) ++ dq ++ ";" ++ nl))))
              Hrange) as [f' Hf'].
  cbv zeta. rewrite Hf'. eexists. reflexivity.
Qed.

Lemma buffer_revision (f : string) (level : nat) (r : ly_revision) :
  yang_print_model_revision level f r = f ++ revision_text level r.
Proof.
  unfold yang_print_model_revision, revision_text.
  destruct (rev_dsc r) as [d|], (rev_ref r) as [rf|]; cbn [non_null orb Nat.pred];
    rewrite ?buffer_fprintf, ?buffer_text; cbn [opt_text]; unfold text_block;
    now rewrite ?append_assoc, ?append_nil_r.
Qed.

Lemma buffer_identities {H : tree_h} (f : string) (level : nat)
  (l : list ly_ident) :
  fold_left (fun f i => yang_print_identity f level i) l f =
  f ++ written (fold_left (fun f i => yang_print_identity f level i) l).
Proof.
  apply (from_empty (fold_left (fun f i => yang_print_identity f level i) l)).
  intros p g. apply (fold_left_rel (after p)); [|reflexivity].
  apply Forall_forall. intros i _ s t Hst.
  now apply (sim_identity (after p) (after_write p)).
Qed.

(** On the buffer the module printer appends the text that it writes to
    an empty buffer. *)
Lemma buffer_model {H : tree_h} (f : string) (module : pointer ly_module)
  (text : string) (status : Z) :
  yang_print_model EmptyString module = Some (text, status) ->
  yang_print_model f module = Some (f ++ text, status).
Proof.
  intros Hempty.
  pose proof (sim_model (after f) (after_write f) EmptyString f module) as Hsim.
  rewrite Hempty in Hsim. unfold sim_result, after in Hsim.
  destruct (yang_print_model f module) as [[g status']|].
  - destruct Hsim as [-> ->]; [now rewrite append_nil_r | reflexivity].
  - exfalso. apply Hsim. now rewrite append_nil_r.
Qed.

(** C8 (as amended).  A revision with a description or a reference is
    printed as a block: the line [revision "date" {], the description and
    the reference that are present, one level deeper, and the closing
    brace.  A revision with neither is printed by the text printer, without
    braces and on two lines: the keyword [revision] on a line of its own,
    the date in double quotes with a semicolon on the next line, one level
    deeper, and an empty line.  The module printer writes the revisions
    of the module in these forms, one after the other in their order. *)
Theorem yang_print_model_revision_forms :
  (forall (f : string) (level : nat) (r : ly_revision),
     yang_print_model_revision level f r =
     f ++
     match rev_dsc r, rev_ref r with
     | None, None =>
         indent level ++ "revision" ++ nl ++
         indent (S level) ++ dq ++ reindent (indent (S level)) (date r) ++ dq ++ ";" ++ nl ++ nl
     | d, rf =>
         indent level ++ "revision " ++ dq ++ date r ++ dq ++ " {" ++ nl ++
         opt_text (S level) "description" d ++
         opt_text (S level) "reference" rf ++
         indent level ++ "}" ++ nl
     end)
  /\ (forall (H : tree_h) (module : pointer ly_module),
        includes_in_range (target module) = true ->
        exists before behind : string,
        forall f : string,
          yang_print_model f module =
          Some (f ++ before ++
                concat_all (map (revision_text 1) (mod_rev (target module))) ++
                behind, EXIT_SUCCESS)).
Proof.
  split.
  - intros. apply buffer_revision.
  - intros H module Hrange.
    assert (exists before behind,
              yang_print_model EmptyString module =
              Some (before ++
                    concat_all (map (revision_text 1) (mod_rev (target module))) ++
                    behind, EXIT_SUCCESS)) as (before & behind & Hempty).
    { unfold yang_print_model.
      match goal with
      | |- context [for_each_i ?body O ?l (Some ?g)] =>
          destruct (includes_some 1 (imp (target module)) l O g Hrange)
            as [f2 Hf2]
      end.
      cbv zeta. rewrite Hf2.
      rewrite buffer_fprintf, buffer_children, buffer_typedefs,
        buffer_identities.
      rewrite (buffer_fold_left _ (revision_text 1))
        by (intros; apply buffer_revision).
      rewrite !buffer_opt_text.
      match goal with
      | |- exists before behind,
             Some (((((?V ++ ?R) ++ ?I) ++ ?T) ++ ?N) ++ ?C, _) = _ =>
          exists V, (I ++ T ++ N ++ C)
      end.
      now rewrite !append_assoc. }
    exists before, behind. intros f. now apply buffer_model.
Qed.

Lemma yang_print_model_revision_forms_witness :
  includes_in_range (target (m1_with [] [] [plain_revision])) = true
  /\ exists before behind : string,
     forall f : string,
       yang_print_model f (m1_with [] [] [plain_revision]) =
       Some (f ++ before ++
             ("  revision" ++ nl ++ "    " ++ dq ++ "2015-06-15" ++ dq ++ ";" ++ nl ++ nl) ++
             behind, EXIT_SUCCESS).
Proof.
  assert (Hrange :
            includes_in_range (target (m1_with [] [] [plain_revision])) = true)
    by reflexivity.
  split; [exact Hrange|].
  exact (proj2 yang_print_model_revision_forms libyang_tree_h
           (m1_with [] [] [plain_revision]) Hrange).
Defined.

(** C8, the claim as stated fails: the revision of 2015-06-15 without
    description and reference is not printed in a single line; its text
    has three line breaks. *)
Lemma yang_print_model_revision_not_single_line :
  yang_print_model EmptyString (m1_with [] [] [plain_revision]) =
    Some ("module m1 {" ++ nl ++
          "  namespace " ++ dq ++ "urn:m1" ++ dq ++ ";" ++ nl ++
          "  prefix " ++ dq ++ "m" ++ dq ++ ";" ++ nl ++
          "  revision" ++ nl ++
          "    " ++ dq ++ "2015-06-15" ++ dq ++ ";" ++ nl ++
          nl ++
          "}" ++ nl, EXIT_SUCCESS)
  /\ line_breaks (yang_print_model_revision 1 EmptyString plain_revision) = 3%nat
  /\ yang_print_model_revision 1 EmptyString plain_revision
     <> "  revision " ++ dq ++ "2015-06-15" ++ dq ++ ";" ++ nl.
Proof.
  split; [reflexivity|]. split; [reflexivity|].
  apply String.eqb_neq. reflexivity.
Qed.

(** C2, the code at an include whose revision date differs from that of
    the import with the same index: the include block of [m1-sub], whose
    revision date is 2015-06-15, is printed with the revision date
    2014-01-01 of the import. *)
Theorem yang_print_model_include_revision_of_import :
  inc_rev include_2015 = "2015-06-15"
  /\ yang_print_model EmptyString (m1_with [import_2014] [include_2015] []) =
     Some ("module m1 {" ++ nl ++
           "  namespace " ++ dq ++ "urn:m1" ++ dq ++ ";" ++ nl ++
           "  prefix " ++ dq ++ "m" ++ dq ++ ";" ++ nl ++
           "  import " ++ dq ++ "types" ++ dq ++ " {" ++ nl ++
           "    prefix" ++ nl ++
           "      " ++ dq ++ "t" ++ dq ++ ";" ++ nl ++
           nl ++
           "    revision-date" ++ nl ++
           "      " ++ dq ++ "2014-01-01" ++ dq ++ ";" ++ nl ++
           nl ++
           "  }" ++ nl ++
           "  include " ++ dq ++ "m1-sub" ++ dq ++ " {" ++ nl ++
           "    revision-date" ++ nl ++
           "      " ++ dq ++ "2014-01-01" ++ dq ++ ";" ++ nl ++
           nl ++
           "  }" ++ nl ++
           "}" ++ nl, EXIT_SUCCESS).
Proof. split; reflexivity. Qed.

Lemma counted_write (start : nat) (f : flaky) (n : nat) (s : string) :
  counted start f n -> counted start (fst (write f s)) (fst (write n s)).
Proof.
  unfold counted, write, flaky_stream, counter. intros Hfn.
  destruct (broken f (calls f)); simpl; lia.
Qed.

(** The module [m1] of the end-to-end scenario: a writable container with
    a leaf that has no config bit of its own. *)
Example yang_print_model_m1 :
  yang_print_model EmptyString m1 =
  Some ("module m1 {" ++ nl ++
        "  namespace " ++ dq ++ "urn:m1" ++ dq ++ ";" ++ nl ++
        "  prefix " ++ dq ++ "m" ++ dq ++ ";" ++ nl ++
        "  container c1 {" ++ nl ++
        "    config " ++ dq ++ "true" ++ dq ++ ";" ++ nl ++
        "    leaf l1 {" ++ nl ++
        "      type string {" ++ nl ++
        "      }" ++ nl ++
        "    }" ++ nl ++
        "  }" ++ nl ++
        "}" ++ nl, EXIT_SUCCESS).
Proof. reflexivity. Qed.

(** C1, the claim as stated fails: on a stream whose first write fails,
    the printer goes on with the other ten writes of the module [m1],
    leaves the text without its first line in the stream, and returns
    [EXIT_SUCCESS] with the error indicator of the stream set. *)
Lemma yang_print_model_ignores_write_failure :
  option_map snd (yang_print_model first_write_fails m1) = Some EXIT_SUCCESS
  /\ option_map (fun r => error (fst r)) (yang_print_model first_write_fails m1)
     = Some true
  /\ option_map (fun r => calls (fst r)) (yang_print_model first_write_fails m1)
     = Some 11%nat
  /\ option_map (fun r => accepted (fst r)) (yang_print_model first_write_fails m1)
     = Some ("  namespace " ++ dq ++ "urn:m1" ++ dq ++ ";" ++ nl ++
             "  prefix " ++ dq ++ "m" ++ dq ++ ";" ++ nl ++
             "  container c1 {" ++ nl ++
             "    config " ++ dq ++ "true" ++ dq ++ ";" ++ nl ++
             "    leaf l1 {" ++ nl ++
             "      type string {" ++ nl ++
             "      }" ++ nl ++
             "    }" ++ nl ++
             "  }" ++ nl ++
             "}" ++ nl).
Proof. do 3 (split; [reflexivity|]). reflexivity. Qed.

(** ** The printer and the text of the tree *)

Section Refinement.

Context {H : tree_h}.

Lemma buffer_block (f : string) (level : nat) (keyword name body : string) :
  f ++ indent level ++ keyword ++ " " ++ name ++ " {" ++ nl ++
  body ++ indent level ++ "}" ++ nl
  = f ++ block level keyword name body.
Proof. reflexivity. Qed.

Lemma buffer_common2_text (f : string) (level : nat) (mnode : ly_mnode) :
  yang_print_mnode_common2 f level mnode =
  f ++ config_text level mnode ++ common_text level mnode.
Proof.
  unfold yang_print_mnode_common2, config_text.
  rewrite buffer_common.
  destruct (match parent mnode with Some _ => _ | None => _ end);
    [|reflexivity].
  unfold statement_line.
  destruct (bit_set _ LY_NODE_CONFIG_W);
    [rewrite buffer_fprintf; now rewrite !append_assoc|].
  destruct (bit_set _ LY_NODE_CONFIG_R);
    [rewrite buffer_fprintf; now rewrite !append_assoc|].
  reflexivity.
Qed.

Lemma buffer_type_text {M : Type} (f : string) (level : nat)
  (module : pointer M) (type : ly_type) :
  yang_print_type f level module type = f ++ type_text level module type.
Proof.
  rewrite buffer_type. unfold type_text, block, type_name.
  destruct (prefix type); now rewrite ?append_assoc.
Qed.

Lemma buffer_typedef_text {M : Type} (f : string) (level : nat)
  (module : pointer M) (tpdf : ly_tpdf) :
  yang_print_typedef f level module tpdf = f ++ typedef_text level module tpdf.
Proof.
  unfold yang_print_typedef, typedef_text, block. cbn [Nat.pred].
  rewrite buffer_fprintf, buffer_type_text, buffer_common, buffer_fprintf.
  now rewrite !append_assoc.
Qed.

Lemma buffer_typedefs_text {M : Type} (f : string) (level : nat)
  (module : pointer M) (l : list ly_tpdf) :
  fold_left (fun f t => yang_print_typedef f level module t) l f =
  f ++ concat_all (map (typedef_text level module) l).
Proof.
  apply buffer_fold_left. intros. apply buffer_typedef_text.
Qed.

Lemma buffer_identity_text (f : string) (level : nat) (ident : ly_ident) :
  yang_print_identity f level ident = f ++ identity_text level ident.
Proof.
  unfold yang_print_identity, identity_text, identity_base_text, block.
  cbn [Nat.pred]. rewrite buffer_fprintf.
  assert (forall g : string,
            match ident_base ident with
            | Some b =>
                if ptr_eqb (ident_module b) (ident_module ident)
                then discard (fprintf g (indent (S level) ++ "base " ++ name b ++ ";" ++ nl))
                else discard (fprintf g (indent (S level) ++ "base " ++ hdr_prefix (target (ident_module b)) ++ ":" ++ name b ++ ";" ++ nl))
            | None => g
            end
            = g ++
              match ident_base ident with
              | Some b =>
                  if ptr_eqb (ident_module b) (ident_module ident)
                  then indent (S level) ++ "base " ++ name b ++ ";" ++ nl
                  else indent (S level) ++ "base " ++ hdr_prefix (target (ident_module b)) ++ ":" ++ name b ++ ";" ++ nl
              | None => EmptyString
              end) as ->.
  { intros g. destruct (ident_base ident) as [b|];
      [destruct (ptr_eqb _ _); reflexivity | now rewrite append_nil_r]. }
  rewrite buffer_common, buffer_fprintf. now rewrite !append_assoc.
Qed.

Lemma buffer_fold_left_Forall {A : Type} (print : string -> A -> string)
  (text : A -> string) (l : list A) :
  Forall (fun x => forall f, print f x = f ++ text x) l ->
  forall f, fold_left print l f = f ++ concat_all (map text l).
Proof.
  induction 1 as [|x l Hx _ IH]; simpl; intros f.
  - now rewrite append_nil_r.
  - now rewrite IH, Hx, append_assoc.
Qed.

Lemma mnode_text_eq (level : nat) (mnode : ly_mnode) (mask : Z) :
  mnode_text level mnode mask =
  let children mask' :=
    concat_all (map (fun sub => mnode_text (S level) sub mask') (child mnode)) in
  let typedefs :=
    concat_all (map (typedef_text (S level) (module mnode)) (tpdf mnode)) in
  let selector := Z.land (nodetype mnode) mask in
  if selector =? LY_NODE_CONTAINER then
    block level "container" (name mnode)
      (config_text (S level) mnode ++ common_text (S level) mnode ++
       typedefs ++ children all_kinds)
  else if selector =? LY_NODE_CHOICE then
    block level "choice" (name mnode)
      (config_text (S level) mnode ++ common_text (S level) mnode ++
       children choice_kinds)
  else if selector =? LY_NODE_LEAF then
    block level "leaf" (name mnode)
      (config_text (S level) mnode ++ common_text (S level) mnode ++
       type_text (S level) (module mnode) (type mnode))
  else if selector =? LY_NODE_LEAFLIST then
    block level "leaf-list" (name mnode)
      (config_text (S level) mnode ++ common_text (S level) mnode ++
       type_text (S level) (module mnode) (type mnode))
  else if selector =? LY_NODE_LIST then
    block level "list" (name mnode)
      (config_text (S level) mnode ++ common_text (S level) mnode ++
       key_line (S level) (map name (keys mnode)) ++
       typedefs ++ children all_kinds)
  else if selector =? LY_NODE_USES then
    block level "uses" (name mnode) (common_text (S level) mnode)
  else if selector =? LY_NODE_GROUPING then
    block level "grouping" (name mnode)
      (common_text (S level) mnode ++ typedefs ++ children all_kinds)
  else EmptyString.
Proof. destruct mnode; reflexivity. Qed.

Lemma buffer_children_text (f : string) (level : nat) (mask : Z)
  (l : list ly_mnode) :
  Forall printed_as_text l ->
  fold_left (fun f sub => yang_print_mnode f level sub mask) l f =
  f ++ concat_all (map (fun sub => mnode_text level sub mask) l).
Proof.
  intros Hl.
  apply (buffer_fold_left_Forall
           (fun f sub => yang_print_mnode f level sub mask)
           (fun sub => mnode_text level sub mask)).
  apply Forall_impl with (2 := Hl). intros sub Hsub g. apply Hsub.
Qed.

Lemma buffer_leaf_text (f : string) (level : nat) (mnode : ly_mnode) :
  yang_print_leaf f level mnode =
  f ++ block level "leaf" (name mnode)
         (config_text (S level) mnode ++ common_text (S level) mnode ++
          type_text (S level) (module mnode) (type mnode)).
Proof.
  unfold yang_print_leaf, block. cbn [Nat.pred].
  rewrite buffer_fprintf, buffer_type_text, buffer_common2_text, buffer_fprintf.
  now rewrite !append_assoc.
Qed.

Lemma buffer_leaflist_text (f : string) (level : nat) (mnode : ly_mnode) :
  yang_print_leaflist f level mnode =
  f ++ block level "leaf-list" (name mnode)
         (config_text (S level) mnode ++ common_text (S level) mnode ++
          type_text (S level) (module mnode) (type mnode)).
Proof.
  unfold yang_print_leaflist, block. cbn [Nat.pred].
  rewrite buffer_fprintf, buffer_type_text, buffer_common2_text, buffer_fprintf.
  now rewrite !append_assoc.
Qed.

Lemma buffer_uses_text (f : string) (level : nat) (mnode : ly_mnode) :
  yang_print_uses f level mnode =
  f ++ block level "uses" (name mnode) (common_text (S level) mnode).
Proof.
  unfold yang_print_uses, block. cbn [Nat.pred].
  rewrite buffer_fprintf, buffer_common, buffer_fprintf.
  now rewrite !append_assoc.
Qed.

Lemma buffer_container_text (f : string) (level : nat) (mnode : ly_mnode) :
  Forall printed_as_text (child mnode) ->
  yang_print_container f level mnode =
  f ++ block level "container" (name mnode)
         (config_text (S level) mnode ++ common_text (S level) mnode ++
          concat_all (map (typedef_text (S level) (module mnode)) (tpdf mnode)) ++
          concat_all (map (fun sub => mnode_text (S level) sub all_kinds)
                        (child mnode))).
Proof.
  intros Hc. unfold yang_print_container, yang_print_container_, block.
  cbn [Nat.pred].
  rewrite buffer_fprintf, (buffer_children_text _ _ _ _ Hc),
    buffer_typedefs_text, buffer_common2_text, buffer_fprintf.
  unfold all_kinds. now rewrite !append_assoc.
Qed.

Lemma buffer_choice_text (f : string) (level : nat) (mnode : ly_mnode) :
  Forall printed_as_text (child mnode) ->
  yang_print_choice f level mnode =
  f ++ block level "choice" (name mnode)
         (config_text (S level) mnode ++ common_text (S level) mnode ++
          concat_all (map (fun sub => mnode_text (S level) sub choice_kinds)
                        (child mnode))).
Proof.
  intros Hc. unfold yang_print_choice, yang_print_choice_, block.
  cbn [Nat.pred].
  rewrite buffer_fprintf, (buffer_children_text _ _ _ _ Hc),
    buffer_common2_text, buffer_fprintf.
  unfold choice_kinds. now rewrite !append_assoc.
Qed.

Lemma buffer_list_text (f : string) (level : nat) (mnode : ly_mnode) :
  Forall printed_as_text (child mnode) ->
  yang_print_list f level mnode =
  f ++ block level "list" (name mnode)
         (config_text (S level) mnode ++ common_text (S level) mnode ++
          key_line (S level) (map name (keys mnode)) ++
          concat_all (map (typedef_text (S level) (module mnode)) (tpdf mnode)) ++
          concat_all (map (fun sub => mnode_text (S level) sub all_kinds)
                        (child mnode))).
Proof.
  intros Hc. unfold yang_print_list, yang_print_list_, block.
  cbn [Nat.pred].
  rewrite buffer_fprintf, (buffer_children_text _ _ _ _ Hc),
    buffer_typedefs_text, buffer_key_part, buffer_common2_text, buffer_fprintf.
  unfold all_kinds. now rewrite !append_assoc.
Qed.

Lemma buffer_grouping_text (f : string) (level : nat) (mnode : ly_mnode) :
  Forall printed_as_text (child mnode) ->
  yang_print_grouping f level mnode =
  f ++ block level "grouping" (name mnode)
         (common_text (S level) mnode ++
          concat_all (map (typedef_text (S level) (module mnode)) (tpdf mnode)) ++
          concat_all (map (fun sub => mnode_text (S level) sub all_kinds)
                        (child mnode))).
Proof.
  intros Hc. unfold yang_print_grouping, yang_print_grouping_, block.
  cbn [Nat.pred].
  rewrite buffer_fprintf, (buffer_children_text _ _ _ _ Hc),
    buffer_typedefs_text, buffer_common, buffer_fprintf.
  unfold all_kinds. now rewrite !append_assoc.
Qed.

Lemma buffer_mnode_text (mnode : ly_mnode) : printed_as_text mnode.
Proof.
  induction mnode as [mnode IH] using ly_mnode_child_ind.
  intros f level mask.
  rewrite yang_print_mnode_eq, mnode_text_eq. cbv zeta.
  repeat match goal with
         | |- context [if ?b then _ else _] => destruct b
         end;
    auto using buffer_container_text, buffer_choice_text, buffer_list_text,
      buffer_grouping_text, buffer_leaf_text, buffer_leaflist_text,
      buffer_uses_text.
  now rewrite append_nil_r.
Qed.

Lemma buffer_nodes_text (f : string) (level : nat) (mask : Z)
  (l : list ly_mnode) :
  fold_left (fun f sub => yang_print_mnode f level sub mask) l f =
  f ++ concat_all (map (fun sub => mnode_text level sub mask) l).
Proof.
  apply buffer_children_text, Forall_forall. intros sub _.
  apply buffer_mnode_text.
Qed.

End Refinement.

Lemma buffer_import_text (level : nat) (f : string) (imp_i : ly_import) :
  yang_print_model_import level f imp_i = f ++ import_text level imp_i.
Proof.
  unfold yang_print_model_import, import_text. cbn [Nat.pred].
  rewrite !buffer_fprintf.
  destruct (first_char_set (imp_rev imp_i)); rewrite !buffer_text;
    now rewrite ?append_assoc, ?append_nil_r.
Qed.

Lemma includes_of_none {FILE : Type} {stream : Stream FILE} (level : nat)
  (imp : list ly_import) (inc : list ly_include) :
  forall i : nat,
  for_each_i (yang_print_model_include level imp) i inc (@None FILE) = None.
Proof.
  induction inc as [|inc_i inc IH]; simpl; intros i; [reflexivity | apply IH].
Qed.

Lemma includes_none {FILE : Type} {stream : Stream FILE} (level : nat)
  (imp : list ly_import) (inc : list ly_include) :
  forall (i : nat) (f : FILE),
  includes_in_range_from i inc (List.length imp) = false ->
  for_each_i (yang_print_model_include level imp) i inc (Some f) = None.
Proof.
  induction inc as [|inc_i inc IH]; simpl; intros i f Hrange; [discriminate|].
  destruct (first_char_set (inc_rev inc_i)); simpl in Hrange.
  - destruct (i <? List.length imp)%nat eqn:Hi; simpl in Hrange.
    + apply Nat.ltb_lt, nth_error_Some in Hi.
      destruct (nth_error imp i) as [imp_i|]; [|congruence].
      now apply IH.
    + apply Nat.ltb_ge, nth_error_None in Hi. rewrite Hi.
      apply includes_of_none.
  - now apply IH.
Qed.

Lemma buffer_include_text (level : nat) (imp : list ly_import) (i : nat)
  (inc_i : ly_include) (f : string) :
  (negb (first_char_set (inc_rev inc_i)) || (i <? List.length imp)%nat) = true ->
  yang_print_model_include level imp (Some f) i inc_i =
  Some (f ++ include_text level imp i inc_i).
Proof.
  intros Hi. unfold yang_print_model_include, include_text.
  destruct (first_char_set (inc_rev inc_i)); cbn [negb orb] in Hi.
  - apply Nat.ltb_lt, nth_error_Some in Hi.
    destruct (nth_error imp i) as [imp_i|]; [|congruence].
    rewrite !buffer_fprintf, buffer_text, Nat.add_1_r.
    now rewrite !append_assoc.
  - now rewrite buffer_fprintf.
Qed.

Lemma buffer_includes_text (level : nat) (imp : list ly_import)
  (inc : list ly_include) :
  forall (i : nat) (f : string),
  includes_in_range_from i inc (List.length imp) = true ->
  for_each_i (yang_print_model_include level imp) i inc (Some f) =
  Some (f ++ includes_text level imp i inc).
Proof.
  induction inc as [|inc_i inc IH]; intros i f Hrange;
    cbn [for_each_i includes_text includes_in_range_from] in *.
  - now rewrite append_nil_r.
  - apply andb_prop in Hrange. destruct Hrange as [Hi Hrange].
    rewrite buffer_include_text by exact Hi.
    rewrite IH by exact Hrange. now rewrite append_assoc.
Qed.

Lemma buffer_module_text {H : tree_h} (f : string)
  (module : pointer ly_module) :
  includes_in_range (target module) = true ->
  yang_print_model f module = Some (f ++ module_text module, EXIT_SUCCESS).
Proof.
  intros Hrange. unfold yang_print_model, module_text. cbv zeta.
  rewrite (buffer_fold_left _ (import_text 1))
    by (intros; apply buffer_import_text).
  rewrite (buffer_includes_text 1 _ _ O _ Hrange).
  rewrite buffer_fprintf, buffer_nodes_text, buffer_typedefs_text.
  rewrite (buffer_fold_left _ (identity_text 1))
    by (intros; apply buffer_identity_text).
  rewrite (buffer_fold_left _ (revision_text 1))
    by (intros; apply buffer_revision).
  rewrite !buffer_opt_text.
  unfold version_text, statement_line, all_kinds.
  destruct (version (target module) =? 0); cbn [negb];
    rewrite !buffer_fprintf; now rewrite ?append_assoc, ?append_nil_r.
Qed.

Lemma unindent_skip (n : nat) (p s : string) :
  unindent n (String.length p) (p ++ s) = unindent n O s.
Proof. induction p as [|a p IH]; simpl; [reflexivity | exact IH]. Qed.

Lemma unindent_reindent (pad text : string) :
  unindent (String.length pad) O (reindent pad text) = text.
Proof.
  induction text as [|a text IH]; simpl; [reflexivity|].
  destruct (Ascii.eqb a nl_char) eqn:Ha; simpl; rewrite Ha.
  - now rewrite unindent_skip, IH.
  - now rewrite IH.
Qed.

Lemma spaces_length (n : nat) : String.length (spaces n) = n.
Proof. induction n as [|n IH]; simpl; [reflexivity | now rewrite IH]. Qed.

(** ** Further properties of the printer *)

(** X1.  A text without line break is written as it is between the double
    quotes, whatever characters it has (double quotes and backslashes are
    not escaped), in one write call after those of the label line and of
    the opening quote. *)
Theorem yang_print_text_verbatim {FILE : Type} {stream : Stream FILE}
  (f : FILE) (level : nat) (label text : string) :
  strchr text nl_char = None ->
  yang_print_text f level label text =
  discard (fprintf
    (discard (fprintf
       (discard (fprintf f (indent level ++ label ++ nl)))
       (indent (S level) ++ dq)))
    (text ++ dq ++ ";" ++ nl ++ nl)).
Proof.
  intros Hnone. unfold yang_print_text.
  rewrite yang_print_text_loop_eq, Hnone. reflexivity.
Qed.

Lemma yang_print_text_verbatim_witness :
  strchr quoted_text nl_char = None
  /\ yang_print_text EmptyString 1 "description" quoted_text =
     "  description" ++ nl ++
     "    " ++ dq ++ quoted_text ++ dq ++ ";" ++ nl ++ nl.
Proof.
  split; [reflexivity|].
  rewrite (yang_print_text_verbatim EmptyString 1 "description" quoted_text);
    reflexivity.
Defined.

(** X2.  Nothing of a text is lost in its block: the body between the
    quotes, with the indentation after each of its line breaks taken out
    again, is the text. *)
Theorem yang_print_text_round_trip (f : string) (level : nat)
  (label text : string) :
  exists body : string,
    yang_print_text f level label text =
    f ++ indent level ++ label ++ nl ++
    indent (S level) ++ dq ++ body ++ dq ++ ";" ++ nl ++ nl
    /\ unindent (LEVEL (S level)) O body = text.
Proof.
  exists (reindent (indent (S level)) text). split.
  - apply buffer_text.
  - rewrite <- (spaces_length (LEVEL (S level))) at 1.
    apply unindent_reindent.
Qed.

(** X3.  An identity is printed as a block with its status, description
    and reference and, when it has a base, a base line: the bare name of
    the base when the base belongs to the module of the identity, the name
    with the prefix of the module of the base before it otherwise. *)
Theorem yang_print_identity_text {H : tree_h} (f : string) (level : nat)
  (ident : ly_ident) :
  yang_print_identity f level ident =
  f ++ indent level ++ "identity " ++ name ident ++ " {" ++ nl ++
  common_text (S level) ident ++
  match ident_base ident with
  | Some b =>
      indent (S level) ++ "base " ++
      (if addr (ident_module b) =? addr (ident_module ident)
       then name b
       else hdr_prefix (target (ident_module b)) ++ ":" ++ name b) ++
      ";" ++ nl
  | None => EmptyString
  end ++
  indent level ++ "}" ++ nl.
Proof.
  rewrite buffer_identity_text.
  unfold identity_text, identity_base_text, block, ptr_eqb.
  destruct (ident_base ident) as [b|]; [|now rewrite ?append_assoc].
  destruct (addr (ident_module b) =? addr (ident_module ident));
    now rewrite ?append_assoc.
Qed.

(** X4.  The body of the type block of an identity reference is one base
    line: the bare name of the identity when it belongs to the module
    given to the printer, the name with the prefix of its own module
    otherwise. *)
Theorem yang_print_type_identityref {H : tree_h} {M : Type} (f : string)
  (level : nat) (module : pointer M) (type : ly_type) :
  LY_TYPE_ENUM <> LY_TYPE_IDENT ->
  base type = LY_TYPE_IDENT ->
  yang_print_type f level module type =
  f ++ indent level ++ "type " ++ type_name type ++ " {" ++ nl ++
  indent (S level) ++ "base " ++
  (if addr module =? addr (ident_module (info_ident_ref type))
   then name (info_ident_ref type)
   else hdr_prefix (target (ident_module (info_ident_ref type))) ++ ":" ++
        name (info_ident_ref type)) ++
  ";" ++ nl ++
  indent level ++ "}" ++ nl.
Proof.
  intros Hne Hbase. rewrite buffer_type. unfold type_body, ptr_eqb.
  rewrite Hbase, Z.eqb_refl.
  replace (LY_TYPE_IDENT =? LY_TYPE_ENUM) with false
    by (symmetry; apply Z.eqb_neq; congruence).
  destruct (addr module =? _); now rewrite ?append_assoc.
Qed.

Lemma yang_print_type_identityref_witness :
  LY_TYPE_ENUM <> LY_TYPE_IDENT
  /\ base identref_type = LY_TYPE_IDENT
  /\ yang_print_type EmptyString 1 m1_ptr identref_type =
     "  type identityref {" ++ nl ++
     "    base other:ethernet;" ++ nl ++
     "  }" ++ nl.
Proof.
  split; [discriminate|]. split; [reflexivity|].
  rewrite (yang_print_type_identityref EmptyString 1 m1_ptr identref_type);
    [reflexivity | discriminate | reflexivity].
Defined.

(** X5.  The body of the type block of an enumeration has one enum block
    for each entry, in the order of the entries: the name, the status,
    description and reference of the entry, and its value. *)
Theorem yang_print_type_enumeration {H : tree_h} {M : Type} (f : string)
  (level : nat) (module : pointer M) (type : ly_type) :
  base type = LY_TYPE_ENUM ->
  yang_print_type f level module type =
  f ++ indent level ++ "type " ++ type_name type ++ " {" ++ nl ++
  concat_all
    (map (fun e =>
            indent (S level) ++ "enum " ++ name e ++ " {" ++ nl ++
            common_text (S (S level)) e ++
            indent (S (S level)) ++ "value " ++ string_of_Z (value e) ++ ";" ++ nl ++
            indent (S level) ++ "}" ++ nl)
       (enums type)) ++
  indent level ++ "}" ++ nl.
Proof.
  intros Hbase. rewrite buffer_type. unfold type_body.
  rewrite Hbase, Z.eqb_refl. reflexivity.
Qed.

Lemma yang_print_type_enumeration_witness :
  base enum_type = LY_TYPE_ENUM
  /\ yang_print_type EmptyString 0 m1_ptr enum_type =
     "type enumeration {" ++ nl ++
     "  enum up {" ++ nl ++
     "    value 1;" ++ nl ++
     "  }" ++ nl ++
     "  enum down {" ++ nl ++
     "    status " ++ dq ++ "deprecated" ++ dq ++ ";" ++ nl ++
     "    value -1;" ++ nl ++
     "  }" ++ nl ++
     "}" ++ nl.
Proof.
  split; [reflexivity|].
  rewrite (yang_print_type_enumeration EmptyString 0 m1_ptr enum_type);
    reflexivity.
Defined.

(** X6.  For a type that is neither an enumeration nor an identity
    reference the type block has no body, whatever the type holds: the
    opening line is followed by the closing brace. *)
Theorem yang_print_type_other_kinds {H : tree_h} {M : Type} (f : string)
  (level : nat) (module : pointer M) (type : ly_type) :
  base type <> LY_TYPE_ENUM ->
  base type <> LY_TYPE_IDENT ->
  yang_print_type f level module type =
  f ++ indent level ++ "type " ++ type_name type ++ " {" ++ nl ++
  indent level ++ "}" ++ nl.
Proof.
  intros Henum Hident. rewrite buffer_type. unfold type_body.
  apply Z.eqb_neq in Henum, Hident. now rewrite Henum, Hident.
Qed.

Lemma yang_print_type_other_kinds_witness :
  base string_type <> LY_TYPE_ENUM
  /\ base string_type <> LY_TYPE_IDENT
  /\ yang_print_type EmptyString 1 m1_ptr string_type =
     "  type string {" ++ nl ++ "  }" ++ nl.
Proof.
  split; [discriminate|]. split; [discriminate|].
  rewrite (yang_print_type_other_kinds EmptyString 1 m1_ptr string_type);
    [reflexivity | discriminate | discriminate].
Defined.

(** X7.  A typedef is printed as a block with its status, description and
    reference followed by its type block, one level deeper. *)
Theorem yang_print_typedef_text {H : tree_h} {M : Type} (f : string)
  (level : nat) (module : pointer M) (tpdf : ly_tpdf) :
  yang_print_typedef f level module tpdf =
  f ++ indent level ++ "typedef " ++ name tpdf ++ " {" ++ nl ++
  common_text (S level) tpdf ++
  indent (S level) ++ "type " ++ type_name (tpdf_type tpdf) ++ " {" ++ nl ++
  type_body (S (S level)) module (tpdf_type tpdf) ++
  indent (S level) ++ "}" ++ nl ++
  indent level ++ "}" ++ nl.
Proof.
  rewrite buffer_typedef_text. unfold typedef_text, type_text, block.
  now rewrite ?append_assoc.
Qed.

(** X8.  On a buffer the dispatcher appends the text of the node, as the
    recursive function [mnode_text] gives it from the tree: the printers
    of the nodes and of their children, with their masks, write the texts
    of the children one after the other inside the block of the node. *)
Theorem yang_print_mnode_text {H : tree_h} (f : string) (level : nat)
  (mnode : ly_mnode) (mask : Z) :
  yang_print_mnode f level mnode mask = f ++ mnode_text level mnode mask.
Proof. apply buffer_mnode_text. Qed.

(** X9.  A grouping is printed with its status, description and reference,
    its typedefs and its children, and never with a config line, whatever
    its parent and its config bits are. *)
Theorem yang_print_grouping_text {H : tree_h} (f : string) (level : nat)
  (mnode : ly_mnode) :
  yang_print_grouping f level mnode =
  f ++ indent level ++ "grouping " ++ name mnode ++ " {" ++ nl ++
  common_text (S level) mnode ++
  concat_all (map (typedef_text (S level) (module mnode)) (tpdf mnode)) ++
  concat_all (map (fun sub => mnode_text (S level) sub all_kinds)
                (child mnode)) ++
  indent level ++ "}" ++ nl.
Proof.
  rewrite buffer_grouping_text.
  - unfold block. now rewrite ?append_assoc.
  - apply Forall_forall. intros sub _. apply buffer_mnode_text.
Qed.

(** X10.  A uses is printed as a block with its status, description and
    reference only: neither a config line nor its children are written. *)
Theorem yang_print_uses_text {H : tree_h} (f : string) (level : nat)
  (mnode : ly_mnode) :
  yang_print_uses f level mnode =
  f ++ indent level ++ "uses " ++ name mnode ++ " {" ++ nl ++
  common_text (S level) mnode ++
  indent level ++ "}" ++ nl.
Proof. rewrite buffer_uses_text. reflexivity. Qed.

(** X11.  A leaf and a leaf-list are printed alike but for the keyword: the
    config line, the status, description and reference, and the type
    block of the node; their children, typedefs and keys are not
    written. *)
Theorem yang_print_leaf_text {H : tree_h} (f : string) (level : nat)
  (mnode : ly_mnode) :
  yang_print_leaf f level mnode =
  f ++ indent level ++ "leaf " ++ name mnode ++ " {" ++ nl ++
  config_text (S level) mnode ++ common_text (S level) mnode ++
  type_text (S level) (module mnode) (type mnode) ++
  indent level ++ "}" ++ nl
  /\ yang_print_leaflist f level mnode =
     f ++ indent level ++ "leaf-list " ++ name mnode ++ " {" ++ nl ++
     config_text (S level) mnode ++ common_text (S level) mnode ++
     type_text (S level) (module mnode) (type mnode) ++
     indent level ++ "}" ++ nl.
Proof.
  rewrite buffer_leaf_text, buffer_leaflist_text. unfold block.
  split; now rewrite ?append_assoc.
Qed.

(** X12.  Under the mask of all kinds, which the module, a container, a
    list and a grouping give for their children, a node of each of the
    seven kinds is printed by the printer of its kind. *)
Theorem yang_print_mnode_all_kinds {H : tree_h} {FILE : Type}
  {stream : Stream FILE} :
  node_types_are_flags = true ->
  forall (f : FILE) (level : nat) (mnode : ly_mnode),
    (nodetype mnode = LY_NODE_CONTAINER ->
     yang_print_mnode f level mnode all_kinds = yang_print_container f level mnode)
    /\ (nodetype mnode = LY_NODE_CHOICE ->
        yang_print_mnode f level mnode all_kinds = yang_print_choice f level mnode)
    /\ (nodetype mnode = LY_NODE_LEAF ->
        yang_print_mnode f level mnode all_kinds = yang_print_leaf f level mnode)
    /\ (nodetype mnode = LY_NODE_LEAFLIST ->
        yang_print_mnode f level mnode all_kinds = yang_print_leaflist f level mnode)
    /\ (nodetype mnode = LY_NODE_LIST ->
        yang_print_mnode f level mnode all_kinds = yang_print_list f level mnode)
    /\ (nodetype mnode = LY_NODE_USES ->
        yang_print_mnode f level mnode all_kinds = yang_print_uses f level mnode)
    /\ (nodetype mnode = LY_NODE_GROUPING ->
        yang_print_mnode f level mnode all_kinds = yang_print_grouping f level mnode).
Proof.
  intros Hflags f level mnode. flag_facts Hflags. unfold all_kinds.
  repeat split; intros Hkind; select_case Hkind.
Qed.

Lemma yang_print_mnode_all_kinds_witness :
  node_types_are_flags = true
  /\ nodetype keyed_list = LY_NODE_LIST
  /\ yang_print_mnode EmptyString 0 keyed_list all_kinds =
     yang_print_list EmptyString 0 keyed_list.
Proof.
  assert (Hflags : node_types_are_flags = true) by reflexivity.
  split; [exact Hflags|]. split; [reflexivity|].
  destruct (yang_print_mnode_all_kinds Hflags EmptyString 0 keyed_list)
    as (_ & _ & _ & _ & Hlist & _).
  apply Hlist. reflexivity.
Defined.

(** X13.  A node whose kind has no bit in the mask is skipped: the
    dispatcher makes no write call for it and leaves the stream as it
    is. *)
Theorem yang_print_mnode_masked_out {H : tree_h} {FILE : Type}
  {stream : Stream FILE} (f : FILE) (level : nat) (mnode : ly_mnode)
  (mask : Z) :
  node_types_are_flags = true ->
  Z.land (nodetype mnode) mask = 0 ->
  yang_print_mnode f level mnode mask = f.
Proof.
  intros Hflags Hmask. flag_facts Hflags.
  rewrite yang_print_mnode_eq. cbv zeta. rewrite Hmask.
  repeat match goal with
         | |- context [0 =? ?b] => rewrite (zero_neq b) by assumption
         end.
  reflexivity.
Qed.

Lemma yang_print_mnode_masked_out_witness :
  node_types_are_flags = true
  /\ Z.land (nodetype anyxml_node) all_kinds = 0
  /\ yang_print_mnode EmptyString 1 anyxml_node all_kinds = EmptyString.
Proof.
  assert (Hflags : node_types_are_flags = true) by reflexivity.
  split; [exact Hflags|]. split; [reflexivity|].
  apply (yang_print_mnode_masked_out EmptyString 1 anyxml_node all_kinds Hflags).
  reflexivity.
Defined.

(** X14.  The module printer reads outside the array of the imports
    exactly when an include with a revision date has an index that no
    import has; on every other module it returns. *)
Theorem yang_print_model_out_of_bounds {H : tree_h} {FILE : Type}
  {stream : Stream FILE} (f : FILE) (module : pointer ly_module) :
  yang_print_model f module = None <->
  includes_in_range (target module) = false.
Proof.
  split.
  - intros Hnone. destruct (includes_in_range (target module)) eqn:Hrange;
      [|reflexivity].
    destruct (yang_print_model_returns f module Hrange) as [f' Hf'].
    congruence.
  - intros Hrange. unfold yang_print_model. cbv zeta.
    match goal with
    | |- context [for_each_i ?body O ?l (Some ?g)] =>
        rewrite (includes_none 1 (imp (target module)) l O g Hrange)
    end.
    reflexivity.
Qed.

Lemma yang_print_model_out_of_bounds_witness :
  includes_in_range (target m1_overrun) = false
  /\ yang_print_model EmptyString m1_overrun = None.
Proof.
  assert (Hrange : includes_in_range (target m1_overrun) = false)
    by reflexivity.
  split; [exact Hrange|].
  exact (proj2 (yang_print_model_out_of_bounds EmptyString m1_overrun) Hrange).
Defined.

(** X15.  On a buffer the module printer appends the text of the module
    and returns [EXIT_SUCCESS]: the header line, the namespace, the
    prefix, the yang-version (none for 0, 1.0 for 1, 1.1 for any other
    value), the imports, the includes, the organization, the contact, the
    description, the reference, the revisions, the identities, the
    typedefs and the top-level nodes under the mask of all kinds, in this
    order, and the closing brace. *)
Theorem yang_print_model_text {H : tree_h} (f : string)
  (module : pointer ly_module) :
  includes_in_range (target module) = true ->
  yang_print_model f module =
  Some (f ++
        "module " ++ mod_name (target module) ++ " {" ++ nl ++
        indent 1 ++ "namespace " ++ dq ++ ns (target module) ++ dq ++ ";" ++ nl ++
        indent 1 ++ "prefix " ++ dq ++ mod_prefix (target module) ++ dq ++ ";" ++ nl ++
        version_text 1 (version (target module)) ++
        concat_all (map (import_text 1) (imp (target module))) ++
        includes_text 1 (imp (target module)) O (inc (target module)) ++
        opt_text 1 "organization" (org (target module)) ++
        opt_text 1 "contact" (contact (target module)) ++
        opt_text 1 "description" (mod_dsc (target module)) ++
        opt_text 1 "reference" (mod_ref (target module)) ++
        concat_all (map (revision_text 1) (mod_rev (target module))) ++
        concat_all (map (identity_text 1) (ident (target module))) ++
        concat_all (map (typedef_text 1 module) (mod_tpdf (target module))) ++
        concat_all (map (fun mnode => mnode_text 1 mnode all_kinds)
                      (data (target module))) ++
        "}" ++ nl,
        EXIT_SUCCESS).
Proof.
  intros Hrange. rewrite (buffer_module_text f module Hrange).
  unfold module_text, statement_line. cbv zeta.
  now rewrite !append_assoc.
Qed.

Lemma yang_print_model_text_witness :
  includes_in_range
    (target (m1_with [import_2014] [include_2015] [plain_revision])) = true
  /\ yang_print_model EmptyString
       (m1_with [import_2014] [include_2015] [plain_revision]) =
     Some ("module m1 {" ++ nl ++
           "  namespace " ++ dq ++ "urn:m1" ++ dq ++ ";" ++ nl ++
           "  prefix " ++ dq ++ "m" ++ dq ++ ";" ++ nl ++
           "  import " ++ dq ++ "types" ++ dq ++ " {" ++ nl ++
           "    prefix" ++ nl ++
           "      " ++ dq ++ "t" ++ dq ++ ";" ++ nl ++
           nl ++
           "    revision-date" ++ nl ++
           "      " ++ dq ++ "2014-01-01" ++ dq ++ ";" ++ nl ++
           nl ++
           "  }" ++ nl ++
           "  include " ++ dq ++ "m1-sub" ++ dq ++ " {" ++ nl ++
           "    revision-date" ++ nl ++
           "      " ++ dq ++ "2014-01-01" ++ dq ++ ";" ++ nl ++
           nl ++
           "  }" ++ nl ++
           "  revision" ++ nl ++
           "    " ++ dq ++ "2015-06-15" ++ dq ++ ";" ++ nl ++
           nl ++
           "}" ++ nl, EXIT_SUCCESS).
Proof.
  assert (Hrange : includes_in_range
            (target (m1_with [import_2014] [include_2015] [plain_revision]))
            = true) by reflexivity.
  split; [exact Hrange|].
  rewrite (yang_print_model_text EmptyString _ Hrange). reflexivity.
Defined.

(** X16.  An import is printed as a block whose prefix is a text block
    (the label [prefix] on a line of its own, the quoted prefix on the
    next) and whose revision date is a text block too, present exactly
    when the revision date is not empty. *)
Theorem yang_print_model_import_text (f : string) (level : nat)
  (imp_i : ly_import) :
  yang_print_model_import level f imp_i =
  f ++ indent level ++ "import " ++ dq ++ hdr_name (imp_module imp_i) ++ dq ++ " {" ++ nl ++
  text_block (S level) "prefix" (imp_prefix imp_i) ++
  match imp_rev imp_i with
  | EmptyString => EmptyString
  | rev_date => text_block (S level) "revision-date" rev_date
  end ++
  indent level ++ "}" ++ nl.
Proof.
  rewrite buffer_import_text. unfold import_text.
  destruct (imp_rev imp_i); reflexivity.
Qed.

(** X17.  The printer never looks at the stream nor at what a write call
    returns: a relation between two streams that every write call keeps
    is kept by the module printer, which gives a result on both streams
    or on none, with the same status. *)
Theorem yang_print_model_stream_blind {H : tree_h} {F G : Type}
  {SF : Stream F} {SG : Stream G} (R : F -> G -> Prop) :
  (forall f g s, R f g -> R (fst (write f s)) (fst (write g s))) ->
  forall (f : F) (g : G) (module : pointer ly_module),
    R f g ->
    match yang_print_model f module, yang_print_model g module with
    | Some (f', status), Some (g', status') => R f' g' /\ status = status'
    | None, None => True
    | _, _ => False
    end.
Proof.
  intros Hwrite f g module Hfg.
  exact (sim_model R Hwrite f g module Hfg).
Qed.

Lemma yang_print_model_stream_blind_witness :
  (forall (f : flaky) (g : nat) (s : string),
     counted 0 f g -> counted 0 (fst (write f s)) (fst (write g s)))
  /\ counted 0 first_write_fails 0
  /\ match yang_print_model first_write_fails m1,
           yang_print_model (FILE := nat) O m1 with
     | Some (f', status), Some (g', status') =>
         counted 0 f' g' /\ status = status'
     | None, None => True
     | _, _ => False
     end.
Proof.
  split; [exact (counted_write 0)|]. split; [reflexivity|].
  exact (yang_print_model_stream_blind (counted 0) (counted_write 0)
           first_write_fails 0%nat m1 eq_refl).
Defined.

Lemma line_breaks_first (t : string) (s : nat) :
  strchr t nl_char = Some s ->
  line_breaks t = S (line_breaks (advance (s + 1) t)).
Proof.
  revert s; induction t as [|a t IH]; simpl; intros s; [discriminate|].
  destruct (Ascii.eqb a nl_char).
  - intros [= <-]. reflexivity.
  - destruct (strchr t nl_char) as [n|]; [|discriminate].
    intros [= <-]. simpl. now apply IH.
Qed.

Lemma line_breaks_none (t : string) :
  strchr t nl_char = None -> line_breaks t = O.
Proof.
  induction t as [|a t IH]; simpl; [reflexivity|].
  destruct (Ascii.eqb a nl_char); [discriminate|].
  destruct (strchr t nl_char); [discriminate | exact IH].
Qed.

Lemma counter_text_loop (level : nat) (t : string) :
  forall n : nat,
  fst (yang_print_text_loop n level t) = (n + 2 * line_breaks t)%nat.
Proof.
  induction t as [t IH] using (induction_ltof1 _ String.length).
  intros n. rewrite yang_print_text_loop_eq.
  destruct (strchr t nl_char) as [s|] eqn:Hs.
  - rewrite IH.
    + rewrite (line_breaks_first _ _ Hs).
      unfold discard, fprintf, fwrite, write, counter. simpl fst. lia.
    + unfold ltof. rewrite advance_length. apply strchr_lt in Hs. lia.
  - rewrite (line_breaks_none _ Hs). simpl. lia.
Qed.

(** X18.  The text printer makes three write calls and two more for each
    line break of the text: one for the line up to the break and one for
    the indentation of the next line. *)
Theorem yang_print_text_write_calls (n : nat) (level : nat)
  (label text : string) :
  yang_print_text (FILE := nat) n level label text =
  (n + 3 + 2 * line_breaks text)%nat.
Proof.
  unfold yang_print_text.
  pose proof (counter_text_loop (S level) text
                (discard (fprintf (discard (fprintf n (indent level ++ label ++ nl)))
                            (indent (S level) ++ dq)))) as Hloop.
  destruct (yang_print_text_loop _ _ _) as [n' t']. cbn [fst] in Hloop.
  subst n'. unfold discard, fprintf, write, counter. simpl fst. lia.
Qed.

(** ** The status of the module printer *)

Lemma replayed_write {FILE : Type} {stream : Stream FILE} (f0 f : FILE)
  (texts : list string) (s : string) :
  replayed f0 f texts ->
  replayed f0 (fst (write f s)) (fst (write texts s)).
Proof.
  unfold replayed, replay. intros ->.
  change (fst (write texts s)) with ((texts ++ [s])%list).
  rewrite fold_left_app. reflexivity.
Qed.

Lemma yang_print_model_undefined {H : tree_h} {FILE : Type}
  {stream : Stream FILE} (f : FILE) (module : pointer ly_module) :
  includes_in_range (target module) = false ->
  yang_print_model f module = None.
Proof.
  intros Hrange. unfold yang_print_model. cbv zeta.
  match goal with
  | |- context [for_each_i ?body O ?l (Some ?g)] =>
      rewrite (includes_none 1 (imp (target module)) l O g Hrange)
  end.
  reflexivity.
Qed.

(** C1 (as amended).  On every stream [yang_print_model] makes the write
    calls that the module gives, with the same texts in the same order,
    leaves their results aside and returns [EXIT_SUCCESS], so also when
    the stream does not fail: a write that fails is neither reported nor
    does it end the walk.  The one module on which it does not return is
    one whose include loop reads outside the array of the imports.  On a
    stream with failures every one of these write calls is made, failed
    or not. *)
Theorem yang_print_model_status {H : tree_h} (module : pointer ly_module) :
  (forall (FILE : Type) (stream : Stream FILE) (f : FILE),
     yang_print_model f module =
     if includes_in_range (target module)
     then Some (replay (write_texts module) f, EXIT_SUCCESS)
     else None)
  /\ (includes_in_range (target module) = true ->
      (forall (FILE : Type) (stream : Stream FILE) (f : FILE),
         exists f', yang_print_model f module = Some (f', EXIT_SUCCESS))
      /\ (forall f : flaky,
            exists f', yang_print_model f module = Some (f', EXIT_SUCCESS)
                       /\ calls f' = (calls f + write_calls module)%nat)).
Proof.
  split.
  - intros FILE stream f.
    destruct (includes_in_range (target module)) eqn:Hrange.
    + destruct (yang_print_model_returns f module Hrange) as [f' Hf'].
      destruct (yang_print_model_returns (FILE := list string) [] module Hrange)
        as [texts Htexts].
      pose proof (sim_model (replayed f) (replayed_write f) f [] module
                    eq_refl) as Hsim.
      unfold write_texts. rewrite Hf', Htexts in *. simpl in Hsim.
      destruct Hsim as [Hreplayed _]. unfold replayed in Hreplayed.
      now rewrite Hreplayed.
    + now apply yang_print_model_undefined.
  - intros Hrange. split.
    + intros FILE stream f. now apply yang_print_model_returns.
    + intros f.
      destruct (yang_print_model_returns f module Hrange) as [f' Hf'].
      exists f'. split; [exact Hf'|].
      pose proof (sim_model (counted (calls f)) (counted_write (calls f))
                    f O module) as Hsim.
      unfold write_calls. rewrite Hf' in Hsim.
      destruct (yang_print_model 0%nat module) as [[n status]|];
        simpl in Hsim.
      * destruct Hsim as [Hcount _]; [unfold counted; lia | exact Hcount].
      * exfalso. apply Hsim. unfold counted. lia.
Qed.

Lemma yang_print_model_status_witness :
  includes_in_range (target m1) = true
  /\ yang_print_model first_write_fails m1 =
     Some (replay (write_texts m1) first_write_fails, EXIT_SUCCESS)
  /\ exists f',
       yang_print_model first_write_fails m1 = Some (f', EXIT_SUCCESS)
       /\ calls f' = (calls first_write_fails + write_calls m1)%nat.
Proof.
  assert (Hrange : includes_in_range (target m1) = true) by reflexivity.
  split; [exact Hrange|]. split.
  - rewrite (proj1 (yang_print_model_status m1) flaky flaky_stream
               first_write_fails).
    rewrite Hrange. reflexivity.
  - exact (proj2 (proj2 (yang_print_model_status m1) Hrange)
             first_write_fails).
Defined.
